(** * go-matter-server: the mDNS codec, the mDNS zone, the WebSocket session
    registry and the command dispatcher, embedded in Rocq.

    Conventions of the embedding.
    - A Go [int], [uint8], [uint16] or [uint32] is a [Z]; where the Go
      arithmetic is done in a narrow type the wrap-around is written out.
      [int] is taken as 64 bits wide.
    - A Go [[]byte] is a [list byte]; a Go [string] is a [string] and the
      conversions [[]byte(s)] and [string(b)] are [list_byte_of_string] and
      [string_of_list_byte].
    - A Go function that can fail returns an [outcome]: a value, a returned
      [error], a run-time panic, or (for loops without a static bound) the
      exhaustion of the fuel the loop was given.
    - A Go [map] is a [gmap]; objects reached through pointers live in an
      explicit store. *)

From Stdlib Require Import ZArith List Lia Bool.
From Stdlib Require Import Strings.String Strings.Ascii Strings.Byte.
From Stdlib Require Import Floats.SpecFloat.
From stdpp Require Import gmap strings list fin_maps.

Import ListNotations.

(** ** Outcomes of Go calls *)

Inductive panic : Type :=
  | IndexOutOfRange
  | NilDereference
  | SendOnClosedChannel
  | NilMapWrite
  | CloseOfClosedChannel.

Inductive outcome (E A : Type) : Type :=
  | Ok (a : A)
  | Err (e : E)
  | Panicked (p : panic)
  | OutOfFuel.

Arguments Ok {E A} a.
Arguments Err {E A} e.
Arguments Panicked {E A} p.
Arguments OutOfFuel {E A}.

Definition obind {E A B} (m : outcome E A) (k : A -> outcome E B) : outcome E B :=
  match m with
  | Ok a => k a
  | Err e => Err e
  | Panicked p => Panicked p
  | OutOfFuel => OutOfFuel
  end.

Declare Scope outcome_scope.
Delimit Scope outcome_scope with outcome.
Notation "'let*' x ':=' m 'in' k" := (obind m (fun x => k))
  (at level 10, x name, m at level 100, k at level 200) : outcome_scope.

(** ** Bytes, slices and Go string helpers *)

Module GoBytes.
Local Open Scope Z_scope.

(** [int(b)] / [uint16(b)] of a byte. *)
Definition u8 (b : byte) : Z := Z.of_N (Byte.to_N b).

(** [byte(z)]: conversion to [uint8] keeps the low eight bits. *)
Definition to_byte (z : Z) : byte :=
  match Byte.of_N (Z.to_N (z mod 256)) with
  | Some b => b
  | None => x00
  end.

(** [len(s)] as a Go [int]. *)
Definition len {A} (l : list A) : Z := Z.of_nat (List.length l).

(** [buf[i]]: panics outside [0 <= i < len(buf)]. *)
Definition idx {E} (buf : list byte) (i : Z) : outcome E byte :=
  if i <? 0 then Panicked IndexOutOfRange
  else match nth_error buf (Z.to_nat i) with
       | Some b => Ok b
       | None => Panicked IndexOutOfRange
       end.

(** [buf[lo:hi]] for [0 <= lo <= hi <= len(buf)]. *)
Definition slice (buf : list byte) (lo hi : Z) : list byte :=
  firstn (Z.to_nat (hi - lo)) (skipn (Z.to_nat lo) buf).

(** [uint16(hi)<<8 | uint16(lo)], computed in [uint16]. *)
Definition be16 (hi lo : byte) : Z :=
  Z.lor ((Z.shiftl (u8 hi) 8) mod 65536) (u8 lo).

(** [strings.Split(s, ".")]. *)
Fixpoint split_dot (s : string) : list string :=
  match s with
  | EmptyString => [EmptyString]
  | String c rest =>
      if Ascii.eqb c "."%char then EmptyString :: split_dot rest
      else match split_dot rest with
           | [] => [String c EmptyString]
           | p :: ps => String c p :: ps
           end
  end.

(** [strings.Join(parts, ".")]. *)
Definition join_dot (parts : list string) : string := String.concat "." parts.

(** [bytes.Equal(a, b)]. *)
Fixpoint bytes_Equal (a b : list byte) : bool :=
  match a, b with
  | [], [] => true
  | x :: a', y :: b' => Byte.eqb x y && bytes_Equal a' b'
  | _, _ => false
  end.

(** [strings.HasSuffix(s, suffix)]. *)
Definition HasSuffix (s suffix : string) : bool :=
  let n := String.length s in
  let k := String.length suffix in
  (k <=? n)%nat && String.eqb (String.substring (n - k) k s) suffix.

End GoBytes.

(** ** The DNS message codec (internal/mdns/server.go) *)

Module DNS.
Import GoBytes.
Local Open Scope Z_scope.
Local Open Scope outcome_scope.

Definition dnsTypeA : Z := 1.
Definition dnsTypeAAAA : Z := 28.
Definition dnsTypePTR : Z := 12.
Definition dnsTypeTXT : Z := 16.
Definition dnsTypeSRV : Z := 33.

Record dnsQuestion : Type := mkQuestion {
  q_Name : string;
  q_Type : Z;
  q_Class : Z
}.

Record dnsRecord : Type := mkRecord {
  r_Name : string;
  r_Type : Z;
  r_Class : Z;
  r_TTL : Z;
  r_Data : list byte
}.

Record dnsMessage : Type := mkMessage {
  ID : Z;
  Response : bool;
  Opcode : Z;
  Authoritative : bool;
  Truncated : bool;
  RecursionDesired : bool;
  RecursionAvailable : bool;
  Rcode : Z;
  Questions : list dnsQuestion;
  Answers : list dnsRecord
}.

Inductive dns_error : Type :=
  | ErrMessageTooShort
  | ErrQuestionTruncated
  | ErrNameExtendsPastBuffer.

Definition result (A : Type) : Type := outcome dns_error A.

(** *** parseName *)

(** The local variables of [parseName]'s loop. *)
Record pn_state : Type := mkPn {
  pn_name : list string;
  pn_original : Z;
  pn_jumped : bool;
  pn_offset : Z
}.

(** What one pass through the body of the [for] does. *)
Inductive pn_step : Type :=
  | PnContinue (st : pn_state)
  | PnBreak (st : pn_state)
  | PnReturn (e : dns_error)
  | PnPanic (p : panic).

Definition parseName_body (buf : list byte) (st : pn_state) : pn_step :=
  let offset := pn_offset st in
  match idx (E := dns_error) buf offset with
  | Ok b =>
      let length := u8 b in
      if length =? 0 then
        PnBreak (mkPn (pn_name st) (pn_original st) (pn_jumped st) (offset + 1))
      else if Z.land length 192 =? 192 then
        match idx (E := dns_error) buf (offset + 1) with
        | Ok b1 =>
            PnContinue
              (mkPn (pn_name st)
                    (if pn_jumped st then pn_original st else offset + 2)
                    true
                    (Z.lor (Z.shiftl (Z.land (u8 b) 63) 8) (u8 b1)))
        | Panicked p => PnPanic p
        | _ => PnPanic IndexOutOfRange
        end
      else if offset + 1 + length >=? len buf then
        PnReturn ErrNameExtendsPastBuffer
      else
        PnContinue
          (mkPn (pn_name st ++
                   [string_of_list_byte (slice buf (offset + 1) (offset + 1 + length))])
                (pn_original st) (pn_jumped st) (offset + 1 + length))
  | Panicked p => PnPanic p
  | _ => PnPanic IndexOutOfRange
  end.

(** The code after the loop. *)
Definition parseName_finish (st : pn_state) : result (string * Z) :=
  Ok (join_dot (pn_name st),
      if pn_jumped st then pn_original st else pn_offset st).

(** [for offset < len(buf) { body }] followed by the code after the loop.
    The loop has no static bound, so it is run on fuel: one unit per pass
    through the body. *)
Fixpoint parseName_loop (fuel : nat) (buf : list byte) (st : pn_state)
  : result (string * Z) :=
  if pn_offset st <? len buf then
    match fuel with
    | O => OutOfFuel
    | S fuel' =>
        match parseName_body buf st with
        | PnContinue st' => parseName_loop fuel' buf st'
        | PnBreak st' => parseName_finish st'
        | PnReturn e => Err e
        | PnPanic p => Panicked p
        end
    end
  else parseName_finish st.

Definition parseName (fuel : nat) (buf : list byte) (offset : Z)
  : result (string * Z) :=
  parseName_loop fuel buf (mkPn [] offset false offset).

(** *** parseDNSMessage *)

(** The question loop, [qdCount] passes; [n] counts the passes left. *)
Fixpoint parseQuestions (fuel : nat) (buf : list byte) (n : nat) (offset : Z)
    (qs : list dnsQuestion) : result (list dnsQuestion) :=
  match n with
  | O => Ok qs
  | S n' =>
      let* parsed := parseName fuel buf offset in
      let '(name, newOffset) := parsed in
      if newOffset + 4 >? len buf then Err ErrQuestionTruncated
      else
        let* t0 := idx buf newOffset in
        let* t1 := idx buf (newOffset + 1) in
        let* c0 := idx buf (newOffset + 2) in
        let* c1 := idx buf (newOffset + 3) in
        parseQuestions fuel buf n' (newOffset + 4)
                       (qs ++ [mkQuestion name (be16 t0 t1) (be16 c0 c1)])
  end.

Definition parseDNSMessage (fuel : nat) (buf : list byte) : result dnsMessage :=
  if len buf <? 12 then Err ErrMessageTooShort
  else
    let* b0 := idx buf 0 in
    let* b1 := idx buf 1 in
    let* b2 := idx buf 2 in
    let* b3 := idx buf 3 in
    let* b4 := idx buf 4 in
    let* b5 := idx buf 5 in
    let qdCount := be16 b4 b5 in
    let* qs := parseQuestions fuel buf (Z.to_nat qdCount) 12 [] in
    Ok (mkMessage (be16 b0 b1)
                  (negb (Z.land (u8 b2) 128 =? 0))
                  (Z.land (Z.shiftr (u8 b2) 3) 15)
                  (negb (Z.land (u8 b2) 4 =? 0))
                  (negb (Z.land (u8 b2) 2 =? 0))
                  (negb (Z.land (u8 b2) 1 =? 0))
                  (negb (Z.land (u8 b3) 128 =? 0))
                  (Z.land (u8 b3) 15)
                  qs
                  []).

(** *** encodeName and encodeDNSMessage *)

Definition encodeName (name : string) : list byte :=
  if String.eqb name "." then [x00]
  else
    fold_left
      (fun buf part =>
         if String.eqb part "" then buf
         else (buf ++ [to_byte (Z.of_nat (String.length part))])
                ++ list_byte_of_string part)
      (split_dot name) []
    ++ [x00].

(** [x |= bit] under [if flag]. *)
Definition set_if (flag : bool) (bit x : Z) : Z :=
  if flag then Z.lor x bit else x.

Definition encodeQuestion (q : dnsQuestion) : list byte :=
  encodeName (q_Name q)
    ++ [to_byte (Z.shiftr (q_Type q) 8); to_byte (q_Type q)]
    ++ [to_byte (Z.shiftr (q_Class q) 8); to_byte (q_Class q)].

Definition encodeRecord (r : dnsRecord) : list byte :=
  encodeName (r_Name r)
    ++ [to_byte (Z.shiftr (r_Type r) 8); to_byte (r_Type r)]
    ++ [to_byte (Z.shiftr (r_Class r) 8); to_byte (r_Class r)]
    ++ [to_byte (Z.shiftr (r_TTL r) 24); to_byte (Z.shiftr (r_TTL r) 16);
        to_byte (Z.shiftr (r_TTL r) 8); to_byte (r_TTL r)]
    ++ [to_byte (Z.shiftr (len (r_Data r)) 8); to_byte (len (r_Data r))]
    ++ r_Data r.

Definition encodeHeader (msg : dnsMessage) : list byte :=
  let b2 :=
    set_if (RecursionDesired msg) 1
      (set_if (Truncated msg) 2
         (set_if (Authoritative msg) 4
            (Z.lor (set_if (Response msg) 128 0)
                   ((Z.shiftl (Z.land (Opcode msg) 15) 3) mod 256)))) in
  let b3 :=
    Z.lor (set_if (RecursionAvailable msg) 128 0) (Z.land (Rcode msg) 15) in
  [ to_byte (Z.shiftr (ID msg) 8); to_byte (ID msg);
    to_byte b2; to_byte b3;
    to_byte (Z.shiftr (len (Questions msg)) 8); to_byte (len (Questions msg));
    to_byte (Z.shiftr (len (Answers msg)) 8); to_byte (len (Answers msg));
    x00; x00; x00; x00 ].

Definition encodeDNSMessage (msg : dnsMessage) : list byte :=
  fold_left (fun buf r => buf ++ encodeRecord r) (Answers msg)
    (fold_left (fun buf q => buf ++ encodeQuestion q) (Questions msg)
       (encodeHeader msg)).

(** *** Messages in the range of the wire format *)

(** The wire form of one label. *)
Definition enc_label (l : string) : list byte :=
  to_byte (Z.of_nat (String.length l)) :: list_byte_of_string l.

(** The labels of a name: none for the empty name. *)
Definition labels_of (name : string) : list string :=
  if String.eqb name "" then [] else split_dot name.

(** A label a length byte can announce without being read as a pointer. *)
Definition good_label (l : string) : Prop :=
  l <> EmptyString /\ (String.length l < 192)%nat.

(** A dotted name with no empty label, or the empty name. *)
Definition wf_name (name : string) : Prop :=
  name = EmptyString \/ Forall good_label (split_dot name).

Definition wf_question (q : dnsQuestion) : Prop :=
  wf_name (q_Name q)
  /\ 0 <= q_Type q < 65536
  /\ 0 <= q_Class q < 65536.

(** The fields are within their Go types, opcode and response code within
    their four bits, and the question count within the 16-bit header
    field. Nothing is asked of the answers. *)
Definition wf_message (msg : dnsMessage) : Prop :=
  0 <= ID msg < 65536
  /\ 0 <= Opcode msg < 16
  /\ 0 <= Rcode msg < 16
  /\ len (Questions msg) < 65536
  /\ Forall wf_question (Questions msg).

Definition without_answers (msg : dnsMessage) : dnsMessage :=
  mkMessage (ID msg) (Response msg) (Opcode msg) (Authoritative msg)
            (Truncated msg) (RecursionDesired msg) (RecursionAvailable msg)
            (Rcode msg) (Questions msg) [].

End DNS.

(** ** The mDNS zone (internal/mdns/zone.go) *)

Module Zone.
Import GoBytes.
Local Open Scope Z_scope.

(** [net.IP]: a byte slice of length 4 or 16 when well formed. *)
Definition IP : Type := list byte.

(** [net.IP.To4]: the 4-byte form of an IPv4 or IPv4-mapped address, [nil]
    ([None]) for anything else. *)
Definition To4 (ip : IP) : option IP :=
  if len ip =? 4 then Some ip
  else if (len ip =? 16)
          && forallb (fun b => u8 b =? 0) (firstn 10 ip)
          && (u8 (nth 10 ip x00) =? 255)
          && (u8 (nth 11 ip x00) =? 255)
       then Some (slice ip 12 16)
       else None.

(** [ip.To4() != nil]. *)
Definition isIPv4 (ip : IP) : bool :=
  match To4 ip with
  | Some _ => true
  | None => false
  end.

Definition IPv6loopback : IP :=
  [x00; x00; x00; x00; x00; x00; x00; x00;
   x00; x00; x00; x00; x00; x00; x00; x01].

(** [net.IP.IsLoopback]. *)
Definition IsLoopback (ip : IP) : bool :=
  match To4 ip with
  | Some ip4 => u8 (nth 0 ip4 x00) =? 127
  | None => bytes_Equal ip IPv6loopback
  end.

(** [net.IP.IsLinkLocalUnicast]. *)
Definition IsLinkLocalUnicast (ip : IP) : bool :=
  match To4 ip with
  | Some ip4 => (u8 (nth 0 ip4 x00) =? 169) && (u8 (nth 1 ip4 x00) =? 254)
  | None =>
      (len ip =? 16) && (u8 (nth 0 ip x00) =? 254)
      && (Z.land (u8 (nth 1 ip x00)) 192 =? 128)
  end.

(** An address that is neither loopback nor link-local. *)
Definition routable (ip : IP) : Prop :=
  IsLoopback ip = false /\ IsLinkLocalUnicast ip = false.

(** [net.Addr] as [updateIPs] sees it through its type switch; the IP of an
    [*net.IPNet] or [*net.IPAddr] may be [nil]. *)
Inductive Addr : Type :=
  | IPNet (ip : option IP)
  | IPAddr (ip : option IP)
  | OtherAddr.

Definition FlagUp : Z := 1.
Definition FlagLoopback : Z := 4.

(** [net.Interface] with the result of its [Addrs()] call ([None]: the call
    returned an error). *)
Record Interface : Type := mkInterface {
  Flags : Z;
  Addrs : option (list Addr)
}.

Record Question : Type := mkQ {
  Name : string;
  Type_ : Z;
  Class : Z
}.

Record RR_Header : Type := mkHdr {
  h_Name : string;
  h_Type : Z;
  h_Class : Z;
  h_TTL : Z;
  h_Length : Z
}.

(** The [Record] interface with the concrete record types of the package. *)
Inductive Record_ : Type :=
  | A (Hdr : RR_Header) (ip : IP)
  | AAAA (Hdr : RR_Header) (ip : IP)
  | PTR (Hdr : RR_Header) (Ptr : string)
  | TXT (Hdr : RR_Header) (Txt : list string)
  | SRV (Hdr : RR_Header) (Priority Weight Port : Z) (Target : string).

Definition Header (r : Record_) : RR_Header :=
  match r with
  | A h _ | AAAA h _ | PTR h _ | TXT h _ | SRV h _ _ _ _ => h
  end.

Record MatterZone : Type := mkZone {
  hostname : string;
  ips : list IP
}.

(** The IP an address contributes in [updateIPs], if any. *)
Definition addr_ip (a : Addr) : option IP :=
  match a with
  | IPNet ip => ip
  | IPAddr ip => ip
  | OtherAddr => None
  end.

(** The inner loop of [updateIPs] over the addresses of one interface. *)
Definition collect_addrs (ips0 : list IP) (addrs : list Addr) : list IP :=
  fold_left
    (fun acc a =>
       match addr_ip a with
       | None => acc
       | Some ip =>
           if IsLoopback ip || IsLinkLocalUnicast ip then acc
           else acc ++ [ip]
       end)
    addrs ips0.

(** [updateIPs]; [interfaces] is what [net.Interfaces()] returned, [None]
    when it returned an error (the zone is then left as it was). *)
Definition updateIPs (z : MatterZone) (interfaces : option (list Interface))
  : MatterZone :=
  match interfaces with
  | None => z
  | Some ifs =>
      mkZone (hostname z)
        (fold_left
           (fun acc iface =>
              if (Z.land (Flags iface) FlagUp =? 0)
                 || negb (Z.land (Flags iface) FlagLoopback =? 0)
              then acc
              else match Addrs iface with
                   | None => acc
                   | Some addrs => collect_addrs acc addrs
                   end)
           ifs [])
  end.

Definition UpdateIPs := updateIPs.

Definition NewMatterZone (hostname : string)
    (interfaces : option (list Interface)) : MatterZone :=
  let hostname := if String.eqb hostname "" then "matter-server"%string
                  else hostname in
  let hostname := if negb (HasSuffix hostname ".local")
                  then (hostname ++ ".local")%string else hostname in
  updateIPs (mkZone hostname []) interfaces.

Section WithToLower.

(** [strings.ToLower] of the Go standard library (Unicode-aware); the zone
    is parametric in it. *)
Variable ToLower : string -> string.

Definition Records (z : MatterZone) (q : Question) : list Record_ :=
  let qname := ToLower (Name q) in
  let hostname_ := ToLower (hostname z) in
  if negb (String.eqb qname hostname_) then []
  else if Type_ q =? DNS.dnsTypeA then
    fold_left
      (fun records ip =>
         match To4 ip with
         | Some _ =>
             records ++ [A (mkHdr (hostname z) DNS.dnsTypeA 1 120 0) ip]
         | None => records
         end)
      (ips z) []
  else if Type_ q =? DNS.dnsTypeAAAA then
    fold_left
      (fun records ip =>
         match To4 ip with
         | None =>
             if negb (IsLoopback ip)
             then records ++ [AAAA (mkHdr (hostname z) DNS.dnsTypeAAAA 1 120 0) ip]
             else records
         | Some _ => records
         end)
      (ips z) []
  else [].

End WithToLower.

(** [strings.ToLower] on ASCII text. *)
Definition ascii_lower (c : ascii) : ascii :=
  let n := nat_of_ascii c in
  if ((65 <=? n) && (n <=? 90))%nat then ascii_of_nat (n + 32) else c.

Fixpoint ToLowerASCII (s : string) : string :=
  match s with
  | EmptyString => EmptyString
  | String c rest => String (ascii_lower c) (ToLowerASCII rest)
  end.

End Zone.

(** ** The WebSocket session registry (internal/websocket/handler.go) and
    the event bus of the server core (Server.Subscribe) *)

Module WS.

(** [sync.RWMutex]: the number of read holders and whether it is write
    locked. An acquisition that cannot proceed is [None]. *)
Record RWMutex : Type := mkMu {
  readers : nat;
  writer : bool
}.

Definition Lock (mu : RWMutex) : option RWMutex :=
  if (readers mu =? 0)%nat && negb (writer mu) then Some (mkMu 0 true)
  else None.

Definition Unlock (mu : RWMutex) : RWMutex := mkMu (readers mu) false.

Definition RLock (mu : RWMutex) : option RWMutex :=
  if writer mu then None else Some (mkMu (S (readers mu)) false).

Definition RUnlock (mu : RWMutex) : RWMutex :=
  mkMu (Nat.pred (readers mu)) (writer mu).

(** [chan []byte] with a buffer. *)
Record Chan : Type := mkChan {
  ch_buf : list string;
  ch_cap : nat;
  ch_closed : bool
}.

(** A [Connection] object. [c_done] says that [ctx.Done()] is closed (by
    [cancel] or by the parent context); [c_unsubscribe] is the closure
    returned by [Subscribe], given by the subscription id it captured,
    [None] for [nil]. *)
Record Connection : Type := mkConn {
  c_id : string;
  c_send : Chan;
  c_done : bool;
  c_unsubscribe : option string;
  c_sock_closed : bool
}.

(** [eventSubscription]; the callback is the [handleEvent] method value of
    the connection at [sub_cb]. *)
Record eventSubscription : Type := mkSub {
  sub_id : string;
  sub_cb : nat
}.

Inductive goroutine : Type :=
  | GoCloseSend (p : nat)
  | GoWritePump (p : nat)
  | GoReadPump (p : nat).

(** Calls made on collaborators, in the order they happen. *)
Inductive effect : Type :=
  | EffMarshal
  | EffUnsubscribe (id : string)
  | EffCancel (p : nat)
  | EffSockWrite (p : nat)
  | EffSockClose (p : nat)
  | EffEnqueue (p : nat).

(** The handler, the event bus of the server and the connection objects. *)
Record World : Type := mkWorld {
  heap : gmap nat Connection;
  connections : gmap string nat;
  connectionsMu : RWMutex;
  eventCallbacks : list eventSubscription;
  eventMu : RWMutex;
  spawned : list goroutine;
  trace : list effect
}.

(** A call returns, blocks for ever on a lock held by its own goroutine or
    by one that never releases it, or panics. *)
Inductive exec (A : Type) : Type :=
  | Done (a : A) (w : World)
  | Blocked (w : World)
  | Panics (p : panic) (w : World).

Arguments Done {A} a w.
Arguments Blocked {A} w.
Arguments Panics {A} p w.

Definition world_of {A} (r : exec A) : World :=
  match r with
  | Done _ w | Blocked w | Panics _ w => w
  end.

Definition set_heap (h : gmap nat Connection) (w : World) : World :=
  mkWorld h (connections w) (connectionsMu w) (eventCallbacks w) (eventMu w)
          (spawned w) (trace w).

Definition set_connections (m : gmap string nat) (w : World) : World :=
  mkWorld (heap w) m (connectionsMu w) (eventCallbacks w) (eventMu w)
          (spawned w) (trace w).

Definition set_connectionsMu (mu : RWMutex) (w : World) : World :=
  mkWorld (heap w) (connections w) mu (eventCallbacks w) (eventMu w)
          (spawned w) (trace w).

Definition set_eventCallbacks (l : list eventSubscription) (w : World) : World :=
  mkWorld (heap w) (connections w) (connectionsMu w) l (eventMu w)
          (spawned w) (trace w).

Definition set_eventMu (mu : RWMutex) (w : World) : World :=
  mkWorld (heap w) (connections w) (connectionsMu w) (eventCallbacks w) mu
          (spawned w) (trace w).

Definition spawn (g : goroutine) (w : World) : World :=
  mkWorld (heap w) (connections w) (connectionsMu w) (eventCallbacks w)
          (eventMu w) (spawned w ++ [g]) (trace w).

Definition emit (e : effect) (w : World) : World :=
  mkWorld (heap w) (connections w) (connectionsMu w) (eventCallbacks w)
          (eventMu w) (spawned w) (trace w ++ [e]).

(** Update of the object at [p] in place. *)
Definition update_conn (p : nat) (f : Connection -> Connection) (w : World)
  : World :=
  set_heap (alter f p (heap w)) w.

Definition with_done (c : Connection) : Connection :=
  mkConn (c_id c) (c_send c) true (c_unsubscribe c) (c_sock_closed c).

Definition with_unsubscribe (u : option string) (c : Connection) : Connection :=
  mkConn (c_id c) (c_send c) (c_done c) u (c_sock_closed c).

Definition with_sock_closed (c : Connection) : Connection :=
  mkConn (c_id c) (c_send c) (c_done c) (c_unsubscribe c) true.

Definition with_send (ch : Chan) (c : Connection) : Connection :=
  mkConn (c_id c) ch (c_done c) (c_unsubscribe c) (c_sock_closed c).

(** *** Server.Subscribe and the closure it returns *)

(** The [for ... break] of the unsubscribe closure: the first entry with
    the id is cut out. *)
Fixpoint remove_sub (id : string) (l : list eventSubscription)
  : list eventSubscription :=
  match l with
  | [] => []
  | s :: l' => if String.eqb (sub_id s) id then l' else s :: remove_sub id l'
  end.

(** [Subscribe]; [id] is what [models.GenerateMessageID()] returned. The
    result is the closure, named by [id]. *)
Definition Subscribe (id : string) (cb : nat) (w : World) : exec string :=
  match Lock (eventMu w) with
  | None => Blocked w
  | Some mu =>
      let w1 := set_eventMu mu w in
      let w2 := set_eventCallbacks (eventCallbacks w1 ++ [mkSub id cb]) w1 in
      Done id (set_eventMu (Unlock (eventMu w2)) w2)
  end.

(** A call of the closure returned by [Subscribe] for [id]. *)
Definition unsubscribe (id : string) (w : World) : exec unit :=
  let w0 := emit (EffUnsubscribe id) w in
  match Lock (eventMu w0) with
  | None => Blocked w0
  | Some mu =>
      let w1 := set_eventMu mu w0 in
      let w2 := set_eventCallbacks (remove_sub id (eventCallbacks w1)) w1 in
      Done tt (set_eventMu (Unlock (eventMu w2)) w2)
  end.

(** *** Connection.close *)

Definition close (p : nat) (w : World) : exec unit :=
  match heap w !! p with
  | None => Panics NilDereference w
  | Some c =>
      if c_done c then Done tt w
      else
        let r :=
          match c_unsubscribe c with
          | None => Done tt w
          | Some id =>
              match unsubscribe id w with
              | Done _ w' => Done tt (update_conn p (with_unsubscribe None) w')
              | other => other
              end
          end in
        match r with
        | Done _ w1 =>
            let w2 := emit (EffCancel p) (update_conn p with_done w1) in
            match Lock (connectionsMu w2) with
            | None => Blocked w2
            | Some mu =>
                let w3 := set_connectionsMu mu w2 in
                let w4 := set_connections (delete (c_id c) (connections w3)) w3 in
                let w5 := set_connectionsMu (Unlock (connectionsMu w4)) w4 in
                let w6 := spawn (GoCloseSend p) w5 in
                Done tt (emit (EffSockClose p) (update_conn p with_sock_closed w6))
            end
        | other => other
        end
  end.


(** The goroutine spawned by [close]: [close(c.send)] under a deferred
    [recover], so closing a closed channel is swallowed. *)
Definition run_GoCloseSend (p : nat) (w : World) : exec unit :=
  match heap w !! p with
  | None => Done tt w
  | Some c =>
      if ch_closed (c_send c) then Done tt w
      else
        Done tt
          (update_conn p
             (fun c => with_send (mkChan (ch_buf (c_send c)) (ch_cap (c_send c)) true) c)
             w)
  end.

(** *** HandleWebSocket, after a successful upgrade *)

(** [p] is the address of the new [Connection]; [connID] and [subID] are
    the two identifiers [models.GenerateMessageID()] returned; [parent_done]
    says whether the request context is already cancelled; [info_sent] says
    whether marshalling and writing the server info succeeded. *)
Definition HandleWebSocket (p : nat) (connID subID : string)
    (parent_done info_sent : bool) (w : World) : exec unit :=
  let client := mkConn connID (mkChan [] 256 false) parent_done None false in
  let w1 := set_heap (<[p := client]> (heap w)) w in
  match Subscribe subID p w1 with
  | Done u w2 =>
      let w3 := update_conn p (with_unsubscribe (Some u)) w2 in
      match Lock (connectionsMu w3) with
      | None => Blocked w3
      | Some mu =>
          let w4 := set_connectionsMu mu w3 in
          let w5 := set_connections (<[connID := p]> (connections w4)) w4 in
          let w6 := set_connectionsMu (Unlock (connectionsMu w5)) w5 in
          if info_sent then
            Done tt (spawn (GoReadPump p) (spawn (GoWritePump p)
                                                 (emit (EffSockWrite p) w6)))
          else close p w6
      end
  | Blocked w2 => Blocked w2
  | Panics e w2 => Panics e w2
  end.

Definition GetConnectionCount (w : World) : nat := size (connections w).

(** *** BroadcastEvent *)

(** The [select] in the loop of [BroadcastEvent] for the session at [p]. *)
Definition try_send (data : string) (p : nat) (w : World) : exec unit :=
  match heap w !! p with
  | None => Panics NilDereference w
  | Some c =>
      let ch := c_send c in
      if ch_closed ch then Panics SendOnClosedChannel w
      else if (List.length (ch_buf ch) <? ch_cap ch)%nat then
        Done tt
          (emit (EffEnqueue p)
             (update_conn p
                (with_send (mkChan (ch_buf ch ++ [data]) (ch_cap ch) false)) w))
      else close p w
  end.

Fixpoint broadcast_loop (data : string) (ps : list nat) (w : World)
  : exec unit :=
  match ps with
  | [] => Done tt w
  | p :: ps' =>
      match try_send data p w with
      | Done _ w' => broadcast_loop data ps' w'
      | other => other
      end
  end.

Section Broadcast.

(** The event type and [json.Marshal] on it ([None]: it returned an
    error). *)
Context {EventMessage : Type}.
Variable json_Marshal : EventMessage -> option string.

(** The sessions are visited in the order of [map_to_list]; Go leaves the
    order of a [range] over a map unspecified. *)
Definition BroadcastEvent (event : EventMessage) (w : World) : exec unit :=
  let w0 := emit EffMarshal w in
  match json_Marshal event with
  | None => Done tt w0
  | Some data =>
      match RLock (connectionsMu w0) with
      | None => Blocked w0
      | Some mu =>
          match broadcast_loop data (map snd (map_to_list (connections w0)))
                               (set_connectionsMu mu w0) with
          | Done _ w1 => Done tt (set_connectionsMu (RUnlock (connectionsMu w1)) w1)
          | Blocked w1 => Blocked w1
          | Panics e w1 =>
              Panics e (set_connectionsMu (RUnlock (connectionsMu w1)) w1)
          end
      end
  end.

End Broadcast.

Definition NewHandler : World :=
  mkWorld ∅ ∅ (mkMu 0 false) [] (mkMu 0 false) [] [].

End WS.

(** ** The command dispatcher of the server core and the node registry *)

Module Server.
Local Open Scope Z_scope.

(** *** Argument values *)

(** A value of type [interface{}] in an argument or attribute map, by its
    dynamic type. [float64] values are IEEE 754 binary64 numbers;
    [json.Number] is a string type. *)
Inductive value : Type :=
  | VFloat64 (f : spec_float)
  | VInt (i : Z)
  | VInt64 (i : Z)
  | VNumber (n : string)
  | VString (s : string)
  | VBool (b : bool)
  | VNil
  | VOther.

(** The integer part of a finite binary64 number, rounded toward zero. *)
Definition float_trunc (f : spec_float) : option Z :=
  match f with
  | S754_zero _ => Some 0
  | S754_finite s m e =>
      let mag := if 0 <=? e then Z.pos m * 2 ^ e else Z.pos m / 2 ^ (- e) in
      Some (if s then - mag else mag)
  | S754_infinity _ => None
  | S754_nan => None
  end.

Definition in_int64 (z : Z) : bool := (- 2 ^ 63 <=? z) && (z <? 2 ^ 63).

(** A decimal digit. *)
Definition digit_of (c : ascii) : option Z :=
  let n := nat_of_ascii c in
  if ((48 <=? n) && (n <=? 57))%nat then Some (Z.of_nat (n - 48)) else None.

Fixpoint parse_digits (acc : Z) (s : string) : option Z :=
  match s with
  | EmptyString => Some acc
  | String c rest =>
      match digit_of c with
      | Some d => parse_digits (acc * 10 + d) rest
      | None => None
      end
  end.

(** [strconv.ParseInt(s, 10, 64)]: an optional sign, then one or more
    decimal digits, the value within [int64]; [None] for the syntax and the
    range error. *)
Definition ParseInt (s : string) : option Z :=
  match s with
  | EmptyString => None
  | String c rest =>
      let neg := Ascii.eqb c "-"%char in
      let digits := if Ascii.eqb c "+"%char || neg then rest else s in
      match digits with
      | EmptyString => None
      | _ =>
          match parse_digits 0 digits with
          | None => None
          | Some un =>
              if negb neg && (2 ^ 63 <=? un) then None
              else if neg && (2 ^ 63 <? un) then None
              else Some (if neg then - un else un)
          end
      end
  end.

(** [json.Number.Int64]. *)
Definition Number_Int64 (n : string) : option Z := ParseInt n.

(** *** Errors and results *)

Inductive srv_error : Type :=
  | ErrMissingNodeID
  | ErrInvalidNumber (n : string)
  | ErrInvalidString (s : string)
  | ErrUnsupportedType
  | ErrNodeNotFound (nodeID : Z)
  | ErrUnknownCommand (cmd : string).

Record ServerInfoMessage : Type := mkInfo {
  FabricID : Z;
  CompressedFabricID : Z;
  SchemaVersion : Z;
  MinSupportedSchemaVersion : Z;
  SDKVersion : string;
  WiFiCredentialsSet : bool;
  ThreadCredentialsSet : bool;
  BluetoothEnabled : bool
}.

(** *** Node records and the store they live in *)

(** [AttributeSubscription]: three [*int], each an address in [intObjs] or
    [nil]. *)
Record AttributeSubscription : Type := mkAttrSub {
  EndpointID : option nat;
  ClusterID : option nat;
  AttributeID : option nat
}.

(** A slice header: backing array, offset, length, capacity. *)
Record slice_hdr : Type := mkSlice {
  s_arr : nat;
  s_off : nat;
  s_len : nat;
  s_cap : nat
}.

(** [MatterNodeData]. [Attributes] is a map value, that is a reference to a
    map object ([None]: the nil map); [AttributeSubscriptions] is a slice
    header ([None]: the nil slice). Times are instants. *)
Record MatterNodeData : Type := mkNode {
  NodeID : Z;
  DateCommissioned : Z;
  LastInterview : Z;
  InterviewVersion : Z;
  Available : bool;
  IsBridge : bool;
  Attributes : option nat;
  AttributeSubscriptions : option slice_hdr
}.

(** The server: the [nodes] map from identifier to [*MatterNodeData], the
    server info, and the objects reachable from them. [nodesMu] is taken
    and released within each handler and no handler runs with it held, so
    it is left out. *)
Record State : Type := mkState {
  nodes : gmap Z nat;
  serverInfo : ServerInfoMessage;
  nodeObjs : gmap nat MatterNodeData;
  mapObjs : gmap nat (gmap string value);
  subArrays : gmap nat (list AttributeSubscription);
  intObjs : gmap nat Z
}.

Definition set_nodeObjs (o : gmap nat MatterNodeData) (st : State) : State :=
  mkState (nodes st) (serverInfo st) o (mapObjs st) (subArrays st) (intObjs st).

Definition set_mapObjs (o : gmap nat (gmap string value)) (st : State) : State :=
  mkState (nodes st) (serverInfo st) (nodeObjs st) o (subArrays st) (intObjs st).

(** What a command returns as its [interface{}] result. *)
Inductive cmd_result : Type :=
  | RInfo (info : ServerInfoMessage)
  | RNodes (ps : list nat)
  | RNode (p : nat)
  | RDiagnostics (info : ServerInfoMessage) (nodes : list MatterNodeData)
                 (events : list value)
  | RPing (r : gmap string bool).

Definition ret (A : Type) : Type := outcome srv_error (A * State).

Section WithFloatConversion.

(** The Go specification leaves [int(f)] implementation-dependent when the
    truncated [f] is not representable in [int] (and for NaN and the
    infinities); the result on such values is a parameter. *)
Variable int_of_unrepresentable : spec_float -> Z.

(** [int(f)] for [f] of type [float64]. *)
Definition int_of_float64 (f : spec_float) : Z :=
  match float_trunc f with
  | Some z => if in_int64 z then z else int_of_unrepresentable f
  | None => int_of_unrepresentable f
  end.

(** *** parseNodeID *)

Definition parseNodeID (args : gmap string value) : outcome srv_error Z :=
  match args !! "node_id"%string with
  | None => Err ErrMissingNodeID
  | Some v =>
      match v with
      | VFloat64 t => Ok (int_of_float64 t)
      | VInt t => Ok t
      | VInt64 t => Ok t
      | VNumber t =>
          match Number_Int64 t with
          | None => Err (ErrInvalidNumber t)
          | Some i => Ok i
          end
      | VString t =>
          match Number_Int64 t with
          | None => Err (ErrInvalidString t)
          | Some i => Ok i
          end
      | _ => Err ErrUnsupportedType
      end
  end.

(** *** The command handlers *)

(** [nodeCopy := *node; &nodeCopy]: a new object holding a copy of the
    struct value. *)
Definition copy_node (node : MatterNodeData) (st : State) : nat * State :=
  let q := fresh (dom (nodeObjs st)) in
  (q, set_nodeObjs (<[q := node]> (nodeObjs st)) st).

Definition handleServerInfo (st : State) : ret cmd_result :=
  Ok (RInfo (serverInfo st), st).

(** The loop of [handleGetNodes] over the pointers in the map. *)
Fixpoint copy_nodes (ps : list nat) (acc : list nat) (st : State)
  : outcome srv_error (list nat * State) :=
  match ps with
  | [] => Ok (acc, st)
  | p :: ps' =>
      match nodeObjs st !! p with
      | None => Panicked NilDereference
      | Some node =>
          let '(q, st') := copy_node node st in
          copy_nodes ps' (acc ++ [q]) st'
      end
  end.

(** The nodes are visited in the order of [map_to_list]. *)
Definition getNodes (st : State) : outcome srv_error (list nat * State) :=
  copy_nodes (map snd (map_to_list (nodes st))) [] st.

Definition handleGetNodes (st : State) : ret cmd_result :=
  match getNodes st with
  | Ok (ps, st') => Ok (RNodes ps, st')
  | Err e => Err e
  | Panicked p => Panicked p
  | OutOfFuel => OutOfFuel
  end.

Definition handleGetNode (args : gmap string value) (st : State)
  : ret cmd_result :=
  match parseNodeID args with
  | Ok nodeID =>
      match nodes st !! nodeID with
      | None => Err (ErrNodeNotFound nodeID)
      | Some p =>
          match nodeObjs st !! p with
          | None => Panicked NilDereference
          | Some node =>
              let '(q, st') := copy_node node st in Ok (RNode q, st')
          end
      end
  | Err e => Err e
  | Panicked p => Panicked p
  | OutOfFuel => OutOfFuel
  end.

(** The loop of [handleServerDiagnostics]: [nodeSlice[i] = *node]. *)
Fixpoint deref_nodes (ps : list nat) (st : State)
  : outcome srv_error (list MatterNodeData) :=
  match ps with
  | [] => Ok []
  | p :: ps' =>
      match nodeObjs st !! p with
      | None => Panicked NilDereference
      | Some node =>
          match deref_nodes ps' st with
          | Ok l => Ok (node :: l)
          | other => other
          end
      end
  end.

Definition handleServerDiagnostics (st : State) : ret cmd_result :=
  match getNodes st with
  | Ok (ps, st') =>
      match deref_nodes ps st' with
      | Ok nodeSlice => Ok (RDiagnostics (serverInfo st') nodeSlice [], st')
      | Err e => Err e
      | Panicked p => Panicked p
      | OutOfFuel => OutOfFuel
      end
  | Err e => Err e
  | Panicked p => Panicked p
  | OutOfFuel => OutOfFuel
  end.

Definition handleStartListening (st : State) : ret cmd_result :=
  handleGetNodes st.

Definition handlePingNode (args : gmap string value) (st : State)
  : ret cmd_result :=
  match parseNodeID args with
  | Ok nodeID =>
      match nodes st !! nodeID with
      | None => Err (ErrNodeNotFound nodeID)
      | Some _ => Ok (RPing {[ "reachable"%string := true ]}, st)
      end
  | Err e => Err e
  | Panicked p => Panicked p
  | OutOfFuel => OutOfFuel
  end.

Record CommandMessage : Type := mkCmd {
  MessageID : string;
  Command : string;
  Args : gmap string value
}.

Definition HandleCommand (cmd : CommandMessage) (st : State) : ret cmd_result :=
  if String.eqb (Command cmd) "server_info" then handleServerInfo st
  else if String.eqb (Command cmd) "get_nodes" then handleGetNodes st
  else if String.eqb (Command cmd) "get_node" then handleGetNode (Args cmd) st
  else if String.eqb (Command cmd) "diagnostics" then handleServerDiagnostics st
  else if String.eqb (Command cmd) "start_listening" then handleStartListening st
  else if String.eqb (Command cmd) "ping_node" then handlePingNode (Args cmd) st
  else Err (ErrUnknownCommand (Command cmd)).

End WithFloatConversion.

(** *** What a caller can do with a returned record *)

(** [node.Attributes[k] = v] through the record at [p]; a write to the nil
    map panics. *)
Definition set_attribute (p : nat) (k : string) (v : value) (st : State)
  : outcome srv_error State :=
  match nodeObjs st !! p with
  | None => Panicked NilDereference
  | Some node =>
      match Attributes node with
      | None => Panicked NilMapWrite
      | Some a =>
          match mapObjs st !! a with
          | None => Panicked NilDereference
          | Some m => Ok (set_mapObjs (<[a := <[k := v]> m]> (mapObjs st)) st)
          end
      end
  end.

(** [*p = node]: assignment of fields of the record at [p]. *)
Definition set_node (p : nat) (node : MatterNodeData) (st : State) : State :=
  set_nodeObjs (<[p := node]> (nodeObjs st)) st.

(** The registry as a reader sees it: for each identifier the record and
    the content of its attributes map. *)
Definition registry_view (st : State)
  : gmap Z (MatterNodeData * option (gmap string value)) :=
  omap (fun p =>
          match nodeObjs st !! p with
          | None => None
          | Some node =>
              Some (node,
                    match Attributes node with
                    | None => None
                    | Some a => mapObjs st !! a
                    end)
          end)
       (nodes st).

(** Every pointer in the [nodes] map points to a record. *)
Definition wf_state (st : State) : Prop :=
  forall (i : Z) (p : nat), nodes st !! i = Some p -> is_Some (nodeObjs st !! p).

End Server.

(** ** Shapes of packets *)

Module Packets.
Import GoBytes.
Local Open Scope Z_scope.

(** A byte that is not the first byte of a compression pointer. *)
Definition plain (b : byte) : Prop := Z.land (u8 b) 192 <> 192.

End Packets.

(** ** The mDNS responder (internal/mdns/server.go) *)

Module Responder.
Import GoBytes DNS Zone.
Local Open Scope Z_scope.

(** [encodeTXT]: each string, cut to 255 bytes, behind its length byte. *)
Definition encodeTXT (txt : list string) : list byte :=
  fold_left
    (fun buf t =>
       let t := if 255 <? Z.of_nat (String.length t)
                then String.substring 0 255 t else t in
       (buf ++ [to_byte (Z.of_nat (String.length t))])
         ++ list_byte_of_string t)
    txt [].

Definition encodeSRV (priority weight port : Z) (target : string) : list byte :=
  [ to_byte (Z.shiftr priority 8); to_byte priority;
    to_byte (Z.shiftr weight 8); to_byte weight;
    to_byte (Z.shiftr port 8); to_byte port ]
    ++ encodeName target.

(** [net.IP.To16]: the 16-byte form, an IPv4 address behind the
    IPv4-in-IPv6 prefix; [nil] ([None]) for another length. *)
Definition To16 (ip : IP) : option IP :=
  if len ip =? 4 then
    Some ([x00; x00; x00; x00; x00; x00; x00; x00; x00; x00; xff; xff] ++ ip)
  else if len ip =? 16 then Some ip
  else None.

(** A [nil] slice has no bytes. *)
Definition bytes_or_nil (b : option (list byte)) : list byte :=
  match b with
  | Some l => l
  | None => []
  end.

Definition encodeRecordData (r : Record_) : list byte :=
  match r with
  | A _ ip => bytes_or_nil (To4 ip)
  | AAAA _ ip => bytes_or_nil (To16 ip)
  | PTR _ ptr => encodeName ptr
  | TXT _ txt => encodeTXT txt
  | SRV _ priority weight port target => encodeSRV priority weight port target
  end.

(** What the server does with a packet: nothing, or one write of a
    response to the sender. *)
Inductive action : Type :=
  | Ignore
  | Send (buf : list byte).

(** [sendResponse] up to the socket write. *)
Definition sendResponse (msg : dnsMessage) : action :=
  Send (encodeDNSMessage msg).

(** The inner loop of [handleQuery]: the records of the zone for one
    question, appended to the answers. *)
Definition answers_for (zone : Question -> list Record_) (q : dnsQuestion)
    (answers : list dnsRecord) : list dnsRecord :=
  fold_left
    (fun answers r =>
       answers ++ [mkRecord (h_Name (Header r)) (h_Type (Header r))
                            (h_Class (Header r)) (h_TTL (Header r))
                            (encodeRecordData r)])
    (zone (mkQ (q_Name q) (q_Type q) (q_Class q))) answers.

(** The response [handleQuery] builds; [zone] is the [Records] method of
    the configured zone. *)
Definition response_for (zone : Question -> list Record_) (msg : dnsMessage)
  : dnsMessage :=
  mkMessage (ID msg) true 0 true false false false 0 []
            (fold_left (fun answers q => answers_for zone q answers)
                       (Questions msg) []).

Definition handleQuery (zone : Question -> list Record_) (msg : dnsMessage)
  : action :=
  if len (Questions msg) =? 0 then Ignore
  else
    let response := response_for zone msg in
    if len (Answers response) >? 0 then sendResponse response else Ignore.

Definition parsePacket (fuel : nat) (zone : Question -> list Record_)
    (buf : list byte) : result action :=
  obind (parseDNSMessage fuel buf)
    (fun msg =>
       if Response msg then Ok Ignore
       else if negb (Opcode msg =? 0) then Ok Ignore
       else if negb (Rcode msg =? 0) then Ok Ignore
       else Ok (handleQuery zone msg)).

End Responder.

(** ** The refresh of the zone, interface by interface *)

Module ZoneRefresh.
Import GoBytes Zone.
Local Open Scope Z_scope.

(** What one address contributes to the list built by [updateIPs]. *)
Definition kept_ip (a : Addr) : list IP :=
  match addr_ip a with
  | None => []
  | Some ip => if IsLoopback ip || IsLinkLocalUnicast ip then [] else [ip]
  end.

(** What one interface contributes to the list built by [updateIPs]. *)
Definition kept_ips (iface : Interface) : list IP :=
  if (Z.land (Flags iface) FlagUp =? 0)
     || negb (Z.land (Flags iface) FlagLoopback =? 0)
  then []
  else match Addrs iface with
       | None => []
       | Some addrs => flat_map kept_ip addrs
       end.

End ZoneRefresh.

(** ** Handler.Shutdown (internal/websocket/handler.go) *)

Module WSShutdown.
Import WS.

(** The loop of [Shutdown] over the sessions in the registry. *)
Fixpoint shutdown_loop (ps : list nat) (w : World) : exec unit :=
  match ps with
  | [] => Done tt w
  | p :: ps' =>
      match close p w with
      | Done _ w' => shutdown_loop ps' w'
      | other => other
      end
  end.

(** [Shutdown]: under the write lock of the registry, released by the
    deferred [Unlock], every registered session is closed and the
    registry is replaced by an empty map. The sessions are visited in the
    order of [map_to_list]. *)
Definition Shutdown (w : World) : exec unit :=
  match Lock (connectionsMu w) with
  | None => Blocked w
  | Some mu =>
      match shutdown_loop (map snd (map_to_list (connections w)))
                          (set_connectionsMu mu w) with
      | Done _ w1 =>
          let w2 := set_connections ∅ w1 in
          Done tt (set_connectionsMu (Unlock (connectionsMu w2)) w2)
      | Blocked w1 => Blocked w1
      | Panics e w1 =>
          Panics e (set_connectionsMu (Unlock (connectionsMu w1)) w1)
      end
  end.

End WSShutdown.

(** ** States of sessions and of the event bus *)

Module WSShapes.
Import WS.

(** The address [p] holds a session. *)
Definition in_heap (w : World) (p : nat) : Prop := exists c, heap w !! p = Some c.

(** The session at [p] exists and its context is not done. *)
Definition live_in (w : World) (p : nat) : Prop :=
  exists c, heap w !! p = Some c /\ c_done c = false.

(** The session at [p] exists and its context is done. *)
Definition done_in (w : World) (p : nat) : Prop :=
  exists c, heap w !! p = Some c /\ c_done c = true.

(** No subscription carries the identifier [id]. *)
Definition fresh_sub (id : string) (l : list eventSubscription) : Prop :=
  Forall (fun s => sub_id s <> id) l.



End WSShapes.

(** ** Server.loadNodes *)

Module ServerLoad.
Import Server.
Local Open Scope Z_scope.

(** The loop of [loadNodes]: [s.nodes[node.NodeID] = node] for each
    pointer the storage returned; a [nil] pointer ([None]) or a pointer to
    no record makes [node.NodeID] panic. *)
Fixpoint load_loop (ptrs : list (option nat)) (st : State)
  : outcome unit State :=
  match ptrs with
  | [] => Ok st
  | None :: _ => Panicked NilDereference
  | Some p :: ptrs' =>
      match nodeObjs st !! p with
      | None => Panicked NilDereference
      | Some node =>
          load_loop ptrs'
            (mkState (<[NodeID node := p]> (nodes st)) (serverInfo st)
                     (nodeObjs st) (mapObjs st) (subArrays st) (intObjs st))
      end
  end.

(** [loadNodes]; [stored] is what [storage.GetNodes()] returned, [None]
    when it returned an error, which [loadNodes] passes on. *)
Definition loadNodes (stored : option (list (option nat))) (st : State)
  : outcome unit State :=
  match stored with
  | None => Err tt
  | Some ptrs => load_loop ptrs st
  end.

(** The server as [New] leaves it for [loadNodes]: an empty [nodes] map;
    the store holds the records of the storage. *)
Definition fresh_server (info : ServerInfoMessage) (objs : gmap nat MatterNodeData)
    (maps : gmap nat (gmap string value)) : State :=
  mkState ∅ info objs maps ∅ ∅.

(** Every key of the [nodes] map is the identifier of the record it
    points to. *)
Definition keyed (st : State) : Prop :=
  forall (i : Z) (p : nat),
    nodes st !! i = Some p ->
    exists node, nodeObjs st !! p = Some node /\ NodeID node = i.

End ServerLoad.


(** ** The server's commands as a whole *)

Module ServerShapes.
Import Server.
Local Open Scope Z_scope.

(** The command names of the [switch] in [HandleCommand]. *)
Definition known_commands : list string :=
  ["server_info"; "get_nodes"; "get_node"; "diagnostics"; "start_listening";
   "ping_node"]%string.

(** [st'] is [st] with more records in the store and nothing else
    touched: the [nodes] map, the server info, the attribute maps and the
    records that were there are the same. *)
Definition allocates_only (st st' : State) : Prop :=
  nodes st' = nodes st
  /\ serverInfo st' = serverInfo st
  /\ mapObjs st' = mapObjs st
  /\ subArrays st' = subArrays st
  /\ intObjs st' = intObjs st
  /\ nodeObjs st ⊆ nodeObjs st'.

(** The pointers of the [nodes] map, in the order a [range] visits
    them in the model. *)
Definition node_ptrs (st : State) : list nat :=
  map snd (map_to_list (nodes st)).

(** Every pointer the storage returned points to a record. *)
Definition stored_ok (objs : gmap nat MatterNodeData) (ptrs : list (option nat))
  : Prop :=
  Forall (fun o => exists p, o = Some p /\ is_Some (objs !! p)) ptrs.

(** The records behind the pointers, where there is one. *)
Definition stored_ids (objs : gmap nat MatterNodeData) (ptrs : list (option nat))
  : list Z :=
  omap (fun o => match o with
                 | Some p => NodeID <$> objs !! p
                 | None => None
                 end) ptrs.

End ServerShapes.
(** * Sample inputs *)

Module DNSSamples.

(** A query header announcing one question, followed by the single byte
    0xC0: the first byte of a compression pointer at the end of the
    packet. *)
Definition truncated_pointer_packet : list byte :=
  [x00; x00; x00; x00; x00; x01; x00; x00; x00; x00; x00; x00; xc0].

(** A query header announcing one question, followed by a compression
    pointer to offset 12, which is the pointer itself. *)
Definition self_pointer_packet : list byte :=
  [x00; x00; x00; x00; x00; x01; x00; x00; x00; x00; x00; x00; xc0; x0c].

(** A query for test.local whose header announces three answers and which
    carries one A record after the question. *)
Definition packet_with_answers : list byte :=
  [x12; x34; x00; x00; x00; x01; x00; x03; x00; x00; x00; x00;
   x04; x74; x65; x73; x74; x05; x6c; x6f; x63; x61; x6c; x00;
   x00; x01; x00; x01;
   xc0; x0c; x00; x01; x00; x01; x00; x00; x00; x78; x00; x04;
   x0a; x00; x00; x01].



End DNSSamples.

Module ZoneSamples.
Import Zone.

(** One interface that is up, with the addresses 10.0.0.1, 192.168.1.7,
    169.254.3.4 (link-local), 2001:db8::1 and fe80::1 (link-local), and a
    loopback interface with 127.0.0.1. *)
Definition sample_interfaces : option (list Interface) :=
  Some
    [ mkInterface 19
        (Some [ IPNet (Some [x0a; x00; x00; x01]);
                IPNet (Some [xc0; xa8; x01; x07]);
                IPNet (Some [xa9; xfe; x03; x04]);
                IPNet (Some [x20; x01; x0d; xb8; x00; x00; x00; x00;
                             x00; x00; x00; x00; x00; x00; x00; x01]);
                IPNet (Some [xfe; x80; x00; x00; x00; x00; x00; x00;
                             x00; x00; x00; x00; x00; x00; x00; x01]) ]);
      mkInterface 5 (Some [ IPNet (Some [x7f; x00; x00; x01]) ]) ].

End ZoneSamples.

Module WSSamples.
Import WS.

(** A handler with one live session, as [HandleWebSocket] leaves it. *)
Definition one_session : World :=
  world_of (HandleWebSocket 0 "conn-1" "sub-1" false true NewHandler).

(** The same session with its outbound queue filled to capacity. *)
Definition one_full_session : World :=
  update_conn 0 (with_send (mkChan (repeat "{}"%string 256) 256 false))
              one_session.

(** [json.Marshal] of an event given by its JSON text. *)
Definition marshal_text (event : string) : option string := Some event.

End WSSamples.

Module ServerSamples.
Import Server.
Local Open Scope Z_scope.


(** [int(f)] on the values the language leaves open, as amd64 does it. *)
Definition int_of_unrepresentable_amd64 (f : spec_float) : Z := - 2 ^ 63.

Definition sample_info : ServerInfoMessage :=
  mkInfo 1 1 11 1 "go-matter-server-1.0.0" false false false.

(** A server with the single node 1, whose attributes map holds one
    entry. *)
Definition one_node : State :=
  mkState {[ 1 := 0%nat ]} sample_info
          {[ 0%nat := mkNode 1 0 0 6 true false (Some 0%nat) None ]}
          {[ 0%nat := {[ "0/40/1"%string := VString "Acme" ]} ]}
          ∅ ∅.

End ServerSamples.

Module MoreSamples.

(** A query for test.local, type A, class IN, with no compression. *)
Definition plain_query_packet : list byte :=
  [x12; x34; x01; x00; x00; x01; x00; x00; x00; x00; x00; x00;
   x04; x74; x65; x73; x74; x05; x6c; x6f; x63; x61; x6c; x00;
   x00; x01; x00; x01].

(** The same query as a message. *)
Definition sample_query : DNS.dnsMessage :=
  DNS.mkMessage 4660 false 0 false false true false 0
    [DNS.mkQuestion "test.local" 1 1] [].

End MoreSamples.


Module ServerMoreSamples.
Import Server.
Local Open Scope Z_scope.

(** What a storage holds: three records, the first and the third with the
    same identifier. *)
Definition stored_objs : gmap nat MatterNodeData :=
  {[ 0%nat := mkNode 1 0 0 6 true false None None;
     1%nat := mkNode 2 0 0 6 true false None None;
     2%nat := mkNode 1 0 0 7 false false None None ]}.

Definition stored_ptrs : list (option nat) := [Some 0%nat; Some 1%nat; Some 2%nat].

Definition get_nodes_cmd : CommandMessage := mkCmd "m-1" "get_nodes" ∅.

End ServerMoreSamples.
(** * Properties *)

(** ** The DNS codec *)

Module DNSFacts.
Import GoBytes DNS DNSSamples.
Local Open Scope Z_scope.

(** *** Bytes *)

Lemma u8_range (b : byte) : 0 <= u8 b < 256.
Proof.
  unfold u8. pose proof (Byte.to_N_bounded b). lia.
Qed.

Lemma u8_to_byte (z : Z) : u8 (to_byte z) = z mod 256.
Proof.
  unfold u8, to_byte.
  assert (Hr : 0 <= z mod 256 < 256) by (apply Z.mod_pos_bound; lia).
  destruct (Byte.of_N (Z.to_N (z mod 256))) as [b|] eqn:E.
  - apply Byte.to_of_N in E. rewrite E. lia.
  - apply Byte.of_N_None_iff in E. lia.
Qed.

Lemma to_byte_u8 (b : byte) : to_byte (u8 b) = b.
Proof.
  unfold to_byte. rewrite Z.mod_small by apply u8_range.
  unfold u8. rewrite N2Z.id, Byte.of_to_N. reflexivity.
Qed.

Lemma u8_to_byte_small (z : Z) : 0 <= z < 256 -> u8 (to_byte z) = z.
Proof. intros H. rewrite u8_to_byte. apply Z.mod_small, H. Qed.

Lemma lor_shift8 (a b : Z) :
  0 <= a -> 0 <= b < 256 -> Z.lor (Z.shiftl a 8) b = a * 256 + b.
Proof.
  intros Ha Hb.
  rewrite <- Z.lxor_lor, <- Z.add_nocarry_lxor.
  - rewrite Z.shiftl_mul_pow2 by lia. reflexivity.
  - apply Z.bits_inj'. intros n Hn.
    rewrite Z.land_spec, Z.bits_0.
    destruct (Z.ltb_spec n 8).
    + rewrite Z.shiftl_spec_low by lia. reflexivity.
    + rewrite (Z.bits_above_log2 b n), andb_false_r; [reflexivity|lia|].
      destruct (Z.eq_dec b 0) as [->|Hz]; [simpl; lia|].
      apply Z.log2_lt_pow2; [lia|].
      apply Z.lt_le_trans with (2 ^ 8); [lia|].
      apply Z.pow_le_mono_r; lia.
  - apply Z.bits_inj'. intros n Hn.
    rewrite Z.land_spec, Z.bits_0.
    destruct (Z.ltb_spec n 8).
    + rewrite Z.shiftl_spec_low by lia. reflexivity.
    + rewrite (Z.bits_above_log2 b n), andb_false_r; [reflexivity|lia|].
      destruct (Z.eq_dec b 0) as [->|Hz]; [simpl; lia|].
      apply Z.log2_lt_pow2; [lia|].
      apply Z.lt_le_trans with (2 ^ 8); [lia|].
      apply Z.pow_le_mono_r; lia.
Qed.

Lemma be16_to_byte (x : Z) :
  0 <= x < 65536 -> be16 (to_byte (Z.shiftr x 8)) (to_byte x) = x.
Proof.
  intros Hx. unfold be16.
  rewrite !u8_to_byte.
  rewrite Z.shiftr_div_pow2 by lia. change (2 ^ 8) with 256.
  assert (Hq : 0 <= x / 256 < 256).
  { split; [apply Z.div_pos; lia|apply Z.div_lt_upper_bound; lia]. }
  rewrite (Z.mod_small (x / 256)) by lia.
  assert (Hs : Z.shiftl (x / 256) 8 = x / 256 * 256).
  { rewrite Z.shiftl_mul_pow2 by lia. reflexivity. }
  rewrite (Z.mod_small (Z.shiftl (x / 256) 8)) by lia.
  rewrite lor_shift8; [|lia|apply Z.mod_pos_bound; lia].
  pose proof (Z.div_mod x 256). lia.
Qed.

(** *** Names *)

Lemma split_dot_nonempty (s : string) : split_dot s <> [].
Proof.
  destruct s as [|c s]; simpl; [discriminate|].
  destruct (Ascii.eqb c "."); [discriminate|].
  destruct (split_dot s); discriminate.
Qed.

Lemma concat_cons (sep x : string) (xs : list string) :
  xs <> [] -> String.concat sep (x :: xs) = (x ++ sep ++ String.concat sep xs)%string.
Proof. destruct xs; [congruence|reflexivity]. Qed.

Lemma join_split (s : string) : join_dot (split_dot s) = s.
Proof.
  unfold join_dot.
  induction s as [|c s IH]; [reflexivity|].
  cbn [split_dot].
  destruct (Ascii.eqb_spec c ".") as [->|Hc].
  - rewrite concat_cons by apply split_dot_nonempty. rewrite IH. reflexivity.
  - destruct (split_dot s) as [|p ps] eqn:E; [exfalso; eapply split_dot_nonempty; eauto|].
    destruct ps as [|p' ps].
    + simpl in *. congruence.
    + rewrite concat_cons by discriminate.
      rewrite concat_cons in IH by discriminate.
      rewrite <- IH. reflexivity.
Qed.

Lemma encode_fold (parts : list string) (acc : list byte) :
  Forall good_label parts ->
  fold_left
    (fun buf part =>
       if String.eqb part "" then buf
       else (buf ++ [to_byte (Z.of_nat (String.length part))])
              ++ list_byte_of_string part)
    parts acc
  = acc ++ flat_map enc_label parts.
Proof.
  intros H. revert acc. induction H as [|l ls [Hl _] _ IH]; intros acc.
  - simpl. rewrite app_nil_r. reflexivity.
  - cbn [fold_left flat_map].
    destruct (String.eqb_spec l ""); [contradiction|].
    rewrite IH. unfold enc_label. rewrite <- !app_assoc. reflexivity.
Qed.

Lemma encodeName_labels (name : string) :
  Forall good_label (split_dot name) ->
  encodeName name = flat_map enc_label (split_dot name) ++ [x00].
Proof.
  intros H. unfold encodeName.
  destruct (String.eqb_spec name ".") as [->|_].
  - simpl in H. inversion H as [|? ? [Hl _]]. congruence.
  - rewrite encode_fold by assumption. reflexivity.
Qed.

Lemma encodeName_empty : encodeName "" = [x00].
Proof. reflexivity. Qed.

(** *** Parsing what was encoded *)

Lemma land_le_l (a b : Z) : 0 <= a -> 0 <= b -> Z.land a b <= a.
Proof.
  intros Ha Hb.
  rewrite <- (Z2N.id a Ha) at 1 2. rewrite <- (Z2N.id b Hb) at 1.
  rewrite <- N2Z.inj_land. apply N2Z.inj_le, N.land_le_l.
Qed.

Lemma length_list_byte_of_string (s : string) :
  List.length (list_byte_of_string s) = String.length s.
Proof.
  unfold list_byte_of_string. rewrite length_map.
  induction s as [|c s IH]; simpl; congruence.
Qed.

Lemma len_bytes_of_string (s : string) :
  len (list_byte_of_string s) = Z.of_nat (String.length s).
Proof. unfold len. rewrite length_list_byte_of_string. reflexivity. Qed.

Lemma len_app {A} (l1 l2 : list A) : len (l1 ++ l2) = len l1 + len l2.
Proof. unfold len. rewrite length_app. lia. Qed.

Lemma len_cons {A} (x : A) (l : list A) : len (x :: l) = 1 + len l.
Proof. unfold len. simpl List.length. lia. Qed.

Lemma len_nonneg {A} (l : list A) : 0 <= len l.
Proof. unfold len. lia. Qed.

Lemma idx_app_here {E} (pre : list byte) (b : byte) (rest : list byte) :
  idx (E := E) (pre ++ b :: rest) (len pre) = Ok b.
Proof.
  unfold idx, len.
  destruct (Z.ltb_spec (Z.of_nat (List.length pre)) 0); [lia|].
  rewrite Nat2Z.id, nth_error_app2 by lia.
  rewrite Nat.sub_diag. reflexivity.
Qed.

Lemma idx_app_at {E} (pre : list byte) (b : byte) (rest : list byte) (i : Z) :
  i = len pre -> idx (E := E) (pre ++ b :: rest) i = Ok b.
Proof. intros ->. apply idx_app_here. Qed.

Lemma slice_app (pre bs rest : list byte) (b : byte) :
  slice (pre ++ b :: bs ++ rest) (len pre + 1) (len pre + 1 + len bs) = bs.
Proof.
  unfold slice, len.
  replace (Z.to_nat (Z.of_nat (List.length pre) + 1 + Z.of_nat (List.length bs)
                     - (Z.of_nat (List.length pre) + 1)))
    with (List.length bs) by lia.
  replace (Z.to_nat (Z.of_nat (List.length pre) + 1))
    with (List.length (pre ++ [b])) by (rewrite length_app; simpl; lia).
  change (pre ++ b :: bs ++ rest) with (pre ++ [b] ++ bs ++ rest).
  rewrite app_assoc.
  rewrite skipn_app, Nat.sub_diag, skipn_all, skipn_O. cbn [app].
  rewrite firstn_app, Nat.sub_diag, firstn_all, firstn_O. apply app_nil_r.
Qed.

Lemma len_enc_label (l : string) :
  len (enc_label l) = 1 + Z.of_nat (String.length l).
Proof.
  unfold enc_label. rewrite len_cons. unfold len.
  rewrite length_list_byte_of_string. reflexivity.
Qed.

Lemma parse_labels (labels : list string) :
  Forall good_label labels ->
  forall (pre post : list byte) (st : pn_state) (fuel : nat),
    pn_offset st = len pre ->
    (List.length labels < fuel)%nat ->
    parseName_loop fuel (pre ++ flat_map enc_label labels ++ x00 :: post) st
    = Ok (join_dot (pn_name st ++ labels),
          if pn_jumped st then pn_original st
          else len pre + len (flat_map enc_label labels) + 1).
Proof.
  induction 1 as [|l ls [Hne Hlt] Hls IH]; intros pre post st fuel Hoff Hfuel.
  - destruct fuel as [|fuel]; [simpl in Hfuel; lia|].
    cbn [flat_map app parseName_loop].
    rewrite Hoff.
    assert (Hlen : (len pre <? len (pre ++ x00 :: post)) = true).
    { apply Z.ltb_lt. rewrite len_app, len_cons. pose proof (len_nonneg post). lia. }
    rewrite Hlen. unfold parseName_body. rewrite Hoff, idx_app_here.
    change (u8 x00 =? 0) with true. cbv iota.
    unfold parseName_finish. cbn [pn_name pn_jumped pn_original pn_offset].
    rewrite app_nil_r. change (len (@nil byte)) with 0.
    rewrite Z.add_0_r. reflexivity.
  - destruct fuel as [|fuel]; [simpl in Hfuel; lia|].
    cbn [flat_map]. rewrite <- app_assoc.
    set (tail := flat_map enc_label ls ++ x00 :: post).
    change (enc_label l)
      with (to_byte (Z.of_nat (String.length l)) :: list_byte_of_string l).
    assert (Hsz : 0 < Z.of_nat (String.length l) < 192).
    { split; [|lia]. destruct l; [congruence|simpl; lia]. }
    assert (Hu : u8 (to_byte (Z.of_nat (String.length l))) = Z.of_nat (String.length l))
      by (apply u8_to_byte_small; lia).
    assert (Htail : 1 <= len tail).
    { unfold tail. rewrite len_app, len_cons.
      pose proof (len_nonneg (flat_map enc_label ls)). pose proof (len_nonneg post). lia. }
    cbn [parseName_loop].
    cbn [app].
    assert (Hlen : (pn_offset st
                    <? len (pre ++ to_byte (Z.of_nat (String.length l))
                                  :: list_byte_of_string l ++ tail)) = true).
    { apply Z.ltb_lt. rewrite Hoff, len_app, len_cons, len_app. 
      pose proof (len_nonneg (list_byte_of_string l)). lia. }
    rewrite Hlen.
    unfold parseName_body. rewrite Hoff.
    rewrite idx_app_here, Hu.
    destruct (Z.eqb_spec (Z.of_nat (String.length l)) 0); [lia|].
    destruct (Z.eqb_spec (Z.land (Z.of_nat (String.length l)) 192) 192) as [Habs|_].
    { pose proof (land_le_l (Z.of_nat (String.length l)) 192). lia. }
    assert (Hin : (len pre + 1 + Z.of_nat (String.length l)
                   >=? len (pre ++ to_byte (Z.of_nat (String.length l))
                                  :: list_byte_of_string l ++ tail)) = false).
    { rewrite Z.geb_leb. apply Z.leb_gt.
      rewrite len_app, len_cons, len_app, len_bytes_of_string. lia. }
    rewrite Hin.
    rewrite <- len_bytes_of_string.
    rewrite slice_app, string_of_list_byte_of_string.
    change (pre ++ to_byte (len (list_byte_of_string l)) :: list_byte_of_string l ++ tail)
      with (pre ++ (to_byte (len (list_byte_of_string l)) :: list_byte_of_string l) ++ tail).
    rewrite app_assoc. unfold tail.
    rewrite IH.
    + cbn [pn_name pn_jumped pn_original pn_offset].
      rewrite <- app_assoc. cbn [app].
      rewrite !len_app, !len_cons.
      destruct (pn_jumped st); [reflexivity|].
      rewrite len_app. do 2 f_equal. lia.
    + cbn [pn_offset]. rewrite len_app, len_cons. lia.
    + simpl in Hfuel. lia.
Qed.

Lemma labels_of_wf (name : string) :
  wf_name name ->
  Forall good_label (labels_of name)
  /\ encodeName name = flat_map enc_label (labels_of name) ++ [x00]
  /\ join_dot (labels_of name) = name.
Proof.
  intros H. unfold labels_of.
  destruct (String.eqb_spec name "") as [->|Hne].
  - repeat split. constructor.
  - destruct H as [H|H]; [contradiction|].
    repeat split; [assumption|apply encodeName_labels; assumption|apply join_split].
Qed.

Lemma length_flat_map_enc (labels : list string) :
  (List.length labels <= List.length (flat_map enc_label labels))%nat.
Proof.
  induction labels as [|l ls IH]; [reflexivity|].
  cbn [flat_map]. rewrite length_app. unfold enc_label at 1. simpl List.length. lia.
Qed.

(** [parseName], started in any state at the first byte of an uncompressed
    name, appends the labels of the name and stops behind its terminator. *)
Lemma parseName_loop_encodeName (name : string) (pre post : list byte)
    (st : pn_state) (fuel : nat) :
  wf_name name ->
  pn_offset st = len pre ->
  (List.length (encodeName name) <= fuel)%nat ->
  parseName_loop fuel (pre ++ encodeName name ++ post) st
  = Ok (join_dot (pn_name st ++ labels_of name),
        if pn_jumped st then pn_original st
        else len pre + len (encodeName name)).
Proof.
  intros Hwf Hoff Hfuel.
  destruct (labels_of_wf name Hwf) as (Hl & He & _).
  rewrite He in *. rewrite <- app_assoc. cbn [app].
  rewrite parse_labels; try assumption.
  - rewrite len_app, len_cons. change (len (@nil byte)) with 0.
    rewrite Z.add_assoc, Z.add_0_r. reflexivity.
  - rewrite length_app in Hfuel. simpl in Hfuel.
    pose proof (length_flat_map_enc (labels_of name)). lia.
Qed.

Lemma parseName_encodeName (name : string) (pre post : list byte) (fuel : nat) :
  wf_name name ->
  (List.length (encodeName name) <= fuel)%nat ->
  parseName fuel (pre ++ encodeName name ++ post) (len pre)
  = Ok (name, len pre + len (encodeName name)).
Proof.
  intros Hwf Hfuel. unfold parseName.
  rewrite parseName_loop_encodeName by (assumption || reflexivity).
  cbn [pn_name pn_jumped app].
  destruct (labels_of_wf name Hwf) as (_ & _ & ->). reflexivity.
Qed.

Lemma idx_app_off {E} (pre rest : list byte) (i : Z) :
  0 <= i ->
  idx (E := E) (pre ++ rest) (len pre + i) = idx (E := E) rest i.
Proof.
  intros Hi. unfold idx, len.
  destruct (Z.ltb_spec (Z.of_nat (List.length pre) + i) 0); [lia|].
  destruct (Z.ltb_spec i 0); [lia|].
  rewrite nth_error_app2 by lia.
  replace (Z.to_nat (Z.of_nat (List.length pre) + i) - List.length pre)%nat
    with (Z.to_nat i) by lia.
  reflexivity.
Qed.

Lemma len_encodeQuestion (q : dnsQuestion) :
  len (encodeQuestion q) = len (encodeName (q_Name q)) + 4.
Proof.
  unfold encodeQuestion. rewrite !len_app. reflexivity.
Qed.

Lemma parseQuestions_encode (qs : list dnsQuestion) :
  Forall wf_question qs ->
  forall (pre post : list byte) (acc : list dnsQuestion) (fuel : nat),
    (List.length (flat_map encodeQuestion qs) <= fuel)%nat ->
    parseQuestions fuel (pre ++ flat_map encodeQuestion qs ++ post)
                   (List.length qs) (len pre) acc
    = Ok (acc ++ qs).
Proof.
  induction 1 as [|q qs (Hn & Ht & Hc) Hqs IH]; intros pre post acc fuel Hfuel.
  - simpl. rewrite app_nil_r. reflexivity.
  - cbn [flat_map List.length parseQuestions].
    cbn [flat_map] in Hfuel. rewrite length_app in Hfuel.
    set (rest := flat_map encodeQuestion qs ++ post).
    rewrite <- app_assoc. fold rest.
    set (buf := pre ++ encodeQuestion q ++ rest).
    set (t0 := to_byte (Z.shiftr (q_Type q) 8)). set (t1 := to_byte (q_Type q)).
    set (c0 := to_byte (Z.shiftr (q_Class q) 8)). set (c1 := to_byte (q_Class q)).
    set (no := len pre + len (encodeName (q_Name q))).
    assert (Hb1 : buf = pre ++ encodeName (q_Name q) ++ (t0 :: t1 :: c0 :: c1 :: rest)).
    { unfold buf, encodeQuestion. rewrite <- !app_assoc. reflexivity. }
    assert (Hb2 : buf = (pre ++ encodeName (q_Name q)) ++ t0 :: t1 :: c0 :: c1 :: rest).
    { rewrite Hb1, <- app_assoc. reflexivity. }
    assert (Hno : no = len (pre ++ encodeName (q_Name q)))
      by (unfold no; rewrite len_app; reflexivity).
    assert (Hp : parseName fuel buf (len pre) = Ok (q_Name q, no)).
    { rewrite Hb1. apply parseName_encodeName; [assumption|].
      unfold encodeQuestion in Hfuel. rewrite length_app in Hfuel. lia. }
    assert (Hlen : len buf = no + 4 + len rest).
    { rewrite Hb2, len_app, !len_cons, <- Hno. lia. }
    assert (H0 : idx (E := dns_error) buf no = Ok t0).
    { rewrite Hb2. apply idx_app_at, Hno. }
    assert (H1 : idx (E := dns_error) buf (no + 1) = Ok t1).
    { rewrite Hb2, Hno, idx_app_off by lia. reflexivity. }
    assert (H2 : idx (E := dns_error) buf (no + 2) = Ok c0).
    { rewrite Hb2, Hno, idx_app_off by lia. reflexivity. }
    assert (H3 : idx (E := dns_error) buf (no + 3) = Ok c1).
    { rewrite Hb2, Hno, idx_app_off by lia. reflexivity. }
    rewrite Hp. cbn [obind].
    assert (Hgt : (no + 4 >? len buf) = false).
    { rewrite Z.gtb_ltb. apply Z.ltb_ge. pose proof (len_nonneg rest). lia. }
    rewrite Hgt, H0, H1, H2, H3. cbn [obind].
    unfold t0, t1, c0, c1. rewrite !be16_to_byte by assumption.
    replace buf with ((pre ++ encodeQuestion q) ++ flat_map encodeQuestion qs ++ post)
      by (unfold buf, rest; rewrite <- app_assoc; reflexivity).
    replace (no + 4) with (len (pre ++ encodeQuestion q))
      by (rewrite len_app, len_encodeQuestion; unfold no; lia).
    rewrite IH by lia.
    rewrite <- app_assoc. destruct q; reflexivity.
Qed.

Lemma encodeDNSMessage_app (msg : dnsMessage) :
  encodeDNSMessage msg
  = encodeHeader msg ++ flat_map encodeQuestion (Questions msg)
      ++ flat_map encodeRecord (Answers msg).
Proof.
  unfold encodeDNSMessage.
  assert (Hq : forall qs acc,
             fold_left (fun buf q => buf ++ encodeQuestion q) qs acc
             = acc ++ flat_map encodeQuestion qs).
  { induction qs as [|q qs IH]; intros acc; cbn [fold_left flat_map].
    - rewrite app_nil_r. reflexivity.
    - rewrite IH, <- app_assoc. reflexivity. }
  assert (Hr : forall rs acc,
             fold_left (fun buf r => buf ++ encodeRecord r) rs acc
             = acc ++ flat_map encodeRecord rs).
  { induction rs as [|r rs IH]; intros acc; cbn [fold_left flat_map].
    - rewrite app_nil_r. reflexivity.
    - rewrite IH, <- app_assoc. reflexivity. }
  rewrite Hr, Hq, <- app_assoc. reflexivity.
Qed.

Lemma small_cases (x : Z) :
  0 <= x < 16 ->
  x = 0 \/ x = 1 \/ x = 2 \/ x = 3 \/ x = 4 \/ x = 5 \/ x = 6 \/ x = 7 \/
  x = 8 \/ x = 9 \/ x = 10 \/ x = 11 \/ x = 12 \/ x = 13 \/ x = 14 \/ x = 15.
Proof. lia. Qed.

(** The flag bytes written by [encodeHeader] read back as the flags. *)
Lemma flags_byte2 (r a t rd : bool) (op : Z) :
  0 <= op < 16 ->
  let b2 := to_byte
              (set_if rd 1 (set_if t 2 (set_if a 4
                 (Z.lor (set_if r 128 0) ((Z.shiftl (Z.land op 15) 3) mod 256))))) in
  negb (Z.land (u8 b2) 128 =? 0) = r
  /\ Z.land (Z.shiftr (u8 b2) 3) 15 = op
  /\ negb (Z.land (u8 b2) 4 =? 0) = a
  /\ negb (Z.land (u8 b2) 2 =? 0) = t
  /\ negb (Z.land (u8 b2) 1 =? 0) = rd.
Proof.
  intros Hop. apply small_cases in Hop.
  destruct r, a, t, rd;
    repeat (destruct Hop as [->|Hop]; [vm_compute; repeat split|]);
    subst op; vm_compute; repeat split.
Qed.

Lemma flags_byte3 (ra : bool) (rc : Z) :
  0 <= rc < 16 ->
  let b3 := to_byte (Z.lor (set_if ra 128 0) (Z.land rc 15)) in
  negb (Z.land (u8 b3) 128 =? 0) = ra /\ Z.land (u8 b3) 15 = rc.
Proof.
  intros Hrc. apply small_cases in Hrc.
  destruct ra;
    repeat (destruct Hrc as [->|Hrc]; [vm_compute; repeat split|]);
    subst rc; vm_compute; repeat split.
Qed.

Lemma idx_header {E} (b0 b1 b2 b3 b4 b5 b6 b7 b8 b9 b10 b11 : byte)
    (rest : list byte) :
  let buf := [b0; b1; b2; b3; b4; b5; b6; b7; b8; b9; b10; b11] ++ rest in
  idx (E := E) buf 0 = Ok b0 /\ idx (E := E) buf 1 = Ok b1
  /\ idx (E := E) buf 2 = Ok b2 /\ idx (E := E) buf 3 = Ok b3
  /\ idx (E := E) buf 4 = Ok b4 /\ idx (E := E) buf 5 = Ok b5.
Proof. repeat split. Qed.

(** Encoding then parsing: the header and the questions come back, the
    answers do not. *)
Lemma parse_encode (msg : dnsMessage) (fuel : nat) :
  wf_message msg ->
  (List.length (encodeDNSMessage msg) <= fuel)%nat ->
  parseDNSMessage fuel (encodeDNSMessage msg) = Ok (without_answers msg).
Proof.
  intros (Hid & Hop & Hrc & Hn & Hqs) Hfuel.
  rewrite encodeDNSMessage_app in *.
  set (rest := flat_map encodeQuestion (Questions msg)
                 ++ flat_map encodeRecord (Answers msg)) in *.
  unfold parseDNSMessage.
  assert (Hlen : (len (encodeHeader msg ++ rest) <? 12) = false).
  { apply Z.ltb_ge. rewrite len_app. pose proof (len_nonneg rest).
    change (len (encodeHeader msg)) with 12. lia. }
  rewrite Hlen.
  set (buf := encodeHeader msg ++ rest).
  assert (E0 : idx (E := dns_error) buf 0 = Ok (to_byte (Z.shiftr (ID msg) 8)))
    by reflexivity.
  assert (E1 : idx (E := dns_error) buf 1 = Ok (to_byte (ID msg))) by reflexivity.
  assert (E4 : idx (E := dns_error) buf 4
               = Ok (to_byte (Z.shiftr (len (Questions msg)) 8))) by reflexivity.
  assert (E5 : idx (E := dns_error) buf 5 = Ok (to_byte (len (Questions msg))))
    by reflexivity.
  destruct (idx_header (E := dns_error)
              (to_byte (Z.shiftr (ID msg) 8)) (to_byte (ID msg))
              (nth 2 (encodeHeader msg) x00) (nth 3 (encodeHeader msg) x00)
              (to_byte (Z.shiftr (len (Questions msg)) 8))
              (to_byte (len (Questions msg)))
              (to_byte (Z.shiftr (len (Answers msg)) 8))
              (to_byte (len (Answers msg))) x00 x00 x00 x00 rest)
    as (_ & _ & E2 & E3 & _ & _).
  change ([to_byte (Z.shiftr (ID msg) 8); to_byte (ID msg);
           nth 2 (encodeHeader msg) x00; nth 3 (encodeHeader msg) x00;
           to_byte (Z.shiftr (len (Questions msg)) 8);
           to_byte (len (Questions msg));
           to_byte (Z.shiftr (len (Answers msg)) 8);
           to_byte (len (Answers msg)); x00; x00; x00; x00] ++ rest)
    with buf in E2, E3.
  rewrite E0, E1, E2, E3, E4, E5. cbn [obind].
  rewrite !be16_to_byte by (pose proof (len_nonneg (Questions msg)); lia).
  unfold len at 1. rewrite Nat2Z.id.
  pose proof (parseQuestions_encode (Questions msg) Hqs (encodeHeader msg)
                (flat_map encodeRecord (Answers msg)) [] fuel) as Hp.
  change (len (encodeHeader msg)) with 12 in Hp.
  fold rest in Hp. fold buf in Hp.
  rewrite Hp.
  2:{ rewrite length_app in Hfuel. unfold rest in Hfuel. rewrite length_app in Hfuel. lia. }
  cbn [nth encodeHeader].
  cbn [obind app].
  destruct (flags_byte2 (Response msg) (Authoritative msg) (Truncated msg)
              (RecursionDesired msg) (Opcode msg) Hop) as (F1 & F2 & F3 & F4 & F5).
  destruct (flags_byte3 (RecursionAvailable msg) (Rcode msg) Hrc) as (G1 & G2).
  cbv zeta in F1, F2, F3, F4, F5, G1, G2.
  rewrite F1, F2, F3, F4, F5, G1, G2.
  reflexivity.
Qed.

(** *** The parser on malformed packets and on answers *)

(** C1, at the failing input. On a packet whose last byte is the first
    byte of a compression pointer, [parseName] reads [buf[offset+1]] one
    past the end of the buffer: the call panics with an index out of range
    instead of returning a parse error. *)
Theorem parseDNSMessage_reads_past_truncated_pointer :
  forall fuel : nat,
    parseName (S fuel) truncated_pointer_packet 12 = Panicked IndexOutOfRange
    /\ parseDNSMessage (S fuel) truncated_pointer_packet
       = Panicked IndexOutOfRange.
Proof.
  intros fuel. split; reflexivity.
Qed.

Lemma self_pointer_loops :
  forall fuel : nat,
    parseName_loop fuel self_pointer_packet (mkPn [] 14 true 12) = OutOfFuel.
Proof.
  induction fuel as [|fuel IH]; [reflexivity|].
  cbn [parseName_loop]. exact IH.
Qed.

(** C7, at the failing input. On a packet whose question name is a
    compression pointer to itself, the loop of [parseName] comes back to
    the same state on every pass: no amount of fuel lets [parseName] or
    [parseDNSMessage] return, with a name or with a parse error. *)
Theorem parseName_self_pointer_never_returns :
  forall fuel : nat,
    parseName fuel self_pointer_packet 12 = OutOfFuel
    /\ parseDNSMessage fuel self_pointer_packet = OutOfFuel.
Proof.
  assert (H : forall fuel, parseName fuel self_pointer_packet 12 = OutOfFuel).
  { intros [|fuel]; [reflexivity|].
    unfold parseName. cbn [parseName_loop].
    change (parseName_loop fuel self_pointer_packet (mkPn [] 14 true 12) = OutOfFuel).
    apply self_pointer_loops. }
  intros fuel. split; [apply H|].
  unfold parseDNSMessage.
  change (len self_pointer_packet <? 12) with false. cbv iota.
  repeat match goal with
         | |- context [idx self_pointer_packet ?i] =>
             let v := eval vm_compute in (idx (E := dns_error) self_pointer_packet i) in
             change (idx (E := dns_error) self_pointer_packet i) with v;
             cbn [obind]
         end.
  change (Z.to_nat (be16 x00 x01)) with 1%nat.
  cbn [parseQuestions]. rewrite H. reflexivity.
Qed.

Ltac case_obind :=
  match goal with
  | H : context [obind ?m _] |- _ =>
      let E := fresh "E" in destruct m eqn:E; cbn [obind] in H; try discriminate
  end.

(** C9. Whatever the buffer and whatever answer count its header bytes 6-7
    announce, a message returned by [parseDNSMessage] has an empty answer
    list. *)
Theorem parseDNSMessage_answers_empty :
  forall (fuel : nat) (buf : list byte) (msg : dnsMessage),
    parseDNSMessage fuel buf = Ok msg -> Answers msg = [].
Proof.
  intros fuel buf msg H. unfold parseDNSMessage in H.
  destruct (len buf <? 12); [discriminate|].
  repeat case_obind.
  injection H as <-. reflexivity.
Qed.

Lemma parseDNSMessage_answers_empty_witness :
  parseDNSMessage 8 packet_with_answers
  = Ok (mkMessage 4660 false 0 false false false false 0
                  [mkQuestion "test.local" 1 1] [])
  /\ Answers (mkMessage 4660 false 0 false false false false 0
                        [mkQuestion "test.local" 1 1] []) = [].
Proof.
  split; [reflexivity|].
  apply (parseDNSMessage_answers_empty 8 packet_with_answers). reflexivity.
Defined.


(** *** The round trip *)



Lemma wf_name_test_local : wf_name "test.local".
Proof.
  right. cbn. repeat constructor; try discriminate; cbn; lia.
Qed.




End DNSFacts.

(** ** The mDNS zone *)

Module ZoneFacts.
Import GoBytes Zone ZoneSamples.
Local Open Scope Z_scope.

Lemma collect_addrs_routable (addrs : list Addr) (acc : list IP) :
  Forall routable acc -> Forall routable (collect_addrs acc addrs).
Proof.
  unfold collect_addrs. revert acc.
  induction addrs as [|a addrs IH]; intros acc Hacc; cbn [fold_left]; [assumption|].
  apply IH. destruct (addr_ip a) as [ip|]; [|assumption].
  destruct (IsLoopback ip) eqn:El; [assumption|].
  destruct (IsLinkLocalUnicast ip) eqn:Ell; [assumption|].
  cbn [orb]. apply Forall_app. split; [assumption|].
  constructor; [split; assumption|constructor].
Qed.

Lemma updateIPs_routable (z : MatterZone) (interfaces : option (list Interface)) :
  Forall routable (ips z) -> Forall routable (ips (updateIPs z interfaces)).
Proof.
  intros Hz. destruct interfaces as [ifs|]; [|assumption].
  cbn [updateIPs ips].
  assert (H : forall acc, Forall routable acc ->
              Forall routable
                (fold_left
                   (fun acc iface =>
                      if (Z.land (Flags iface) FlagUp =? 0)
                         || negb (Z.land (Flags iface) FlagLoopback =? 0)
                      then acc
                      else match Addrs iface with
                           | None => acc
                           | Some addrs => collect_addrs acc addrs
                           end)
                   ifs acc)).
  { induction ifs as [|i ifs IH]; intros acc Hacc; cbn [fold_left]; [assumption|].
    apply IH.
    destruct ((Z.land (Flags i) FlagUp =? 0)
              || negb (Z.land (Flags i) FlagLoopback =? 0)); [assumption|].
    destruct (Addrs i); [|assumption].
    apply collect_addrs_routable, Hacc. }
  apply H. constructor.
Qed.

Lemma updateIPs_hostname (z : MatterZone) (interfaces : option (list Interface)) :
  hostname (updateIPs z interfaces) = hostname z.
Proof. destruct interfaces; reflexivity. Qed.

(** The zone after construction and any number of refreshes. *)
Lemma refreshed_zone (cfg : string) (env0 : option (list Interface))
    (envs : list (option (list Interface))) :
  let z := fold_left UpdateIPs envs (NewMatterZone cfg env0) in
  hostname z = hostname (NewMatterZone cfg None) /\ Forall routable (ips z).
Proof.
  cbv zeta.
  assert (H0 : hostname (NewMatterZone cfg env0) = hostname (NewMatterZone cfg None)
               /\ Forall routable (ips (NewMatterZone cfg env0))).
  { unfold NewMatterZone. split.
    - rewrite updateIPs_hostname. reflexivity.
    - apply updateIPs_routable. constructor. }
  revert H0. generalize (NewMatterZone cfg env0) as z.
  induction envs as [|e envs IH]; intros z [Hh Hr]; cbn [fold_left]; [split; assumption|].
  apply IH. unfold UpdateIPs. split.
  - rewrite updateIPs_hostname. assumption.
  - apply updateIPs_routable, Hr.
Qed.

Lemma fold_A (h : RR_Header) (l : list IP) (acc : list Record_) :
  fold_left
    (fun records ip =>
       match To4 ip with
       | Some _ => records ++ [A h ip]
       | None => records
       end) l acc
  = acc ++ map (A h) (List.filter (fun ip => isIPv4 ip) l).
Proof.
  revert acc. induction l as [|ip l IH]; intros acc; cbn [fold_left List.filter map].
  - rewrite app_nil_r. reflexivity.
  - rewrite IH. unfold isIPv4 at 2. destruct (To4 ip); [|reflexivity].
    cbn [map]. rewrite <- app_assoc. reflexivity.
Qed.

Lemma fold_AAAA (h : RR_Header) (l : list IP) (acc : list Record_) :
  fold_left
    (fun records ip =>
       match To4 ip with
       | None => if negb (IsLoopback ip) then records ++ [AAAA h ip] else records
       | Some _ => records
       end) l acc
  = acc ++ map (AAAA h)
             (List.filter (fun ip => negb (isIPv4 ip) && negb (IsLoopback ip)) l).
Proof.
  revert acc. induction l as [|ip l IH]; intros acc; cbn [fold_left List.filter map].
  - rewrite app_nil_r. reflexivity.
  - rewrite IH. unfold isIPv4 at 2. destruct (To4 ip); [reflexivity|].
    cbn [negb andb]. destruct (IsLoopback ip); cbn [negb]; [reflexivity|].
    cbn [map]. rewrite <- app_assoc. reflexivity.
Qed.

Lemma filter_routable (P : IP -> bool) (l : list IP) :
  Forall routable l ->
  List.filter (fun ip => P ip && negb (IsLoopback ip)) l
  = List.filter (fun ip => P ip && negb (IsLoopback ip) && negb (IsLinkLocalUnicast ip)) l
  /\ List.filter (fun ip => P ip && negb (IsLoopback ip)) l = List.filter (fun ip => P ip) l.
Proof.
  induction 1 as [|ip l [H1 H2] _ [IH1 IH2]]; [split; reflexivity|].
  cbn [List.filter]. rewrite H1, H2. cbn [negb]. rewrite !andb_true_r.
  split; [rewrite IH1|rewrite IH2]; reflexivity.
Qed.

Section WithToLower.

Variable ToLower : string -> string.

(** C5, as amended. The advertised hostname is the configured value,
    or matter-server when the configured value is empty, with .local
    appended once if absent. For a zone built by [NewMatterZone] and
    refreshed any number of times: the answer is non-empty only for a name
    equal to the advertised hostname after lowering both; on such a name a
    type-A question gets one A record per known non-loopback IPv4 address,
    a type-AAAA question one AAAA record per known non-loopback
    non-link-local IPv6 address, any other type no record; the known
    addresses are never loopback or link-local; every record has TTL
    120. *)
Theorem Records_spec :
  forall (cfg : string) (env0 : option (list Interface))
         (envs : list (option (list Interface))) (q : Question),
    let z := fold_left UpdateIPs envs (NewMatterZone cfg env0) in
    let base := if String.eqb cfg "" then "matter-server"%string else cfg in
    hostname z
      = (if HasSuffix base ".local" then base else (base ++ ".local")%string)
    /\ (Records ToLower z q <> [] -> ToLower (Name q) = ToLower (hostname z))
    /\ (ToLower (Name q) = ToLower (hostname z) ->
        (Type_ q = DNS.dnsTypeA ->
         Records ToLower z q
         = map (A (mkHdr (hostname z) DNS.dnsTypeA 1 120 0))
               (List.filter (fun ip => isIPv4 ip && negb (IsLoopback ip)) (ips z)))
        /\ (Type_ q = DNS.dnsTypeAAAA ->
            Records ToLower z q
            = map (AAAA (mkHdr (hostname z) DNS.dnsTypeAAAA 1 120 0))
                  (List.filter (fun ip => negb (isIPv4 ip) && negb (IsLoopback ip)
                                     && negb (IsLinkLocalUnicast ip)) (ips z)))
        /\ (Type_ q <> DNS.dnsTypeA -> Type_ q <> DNS.dnsTypeAAAA ->
            Records ToLower z q = []))
    /\ Forall routable (ips z)
    /\ Forall (fun r => h_TTL (Header r) = 120) (Records ToLower z q).
Proof.
  intros cfg env0 envs q z base.
  destruct (refreshed_zone cfg env0 envs) as [Hh Hr]. fold z in Hh, Hr.
  assert (HA : Type_ q = DNS.dnsTypeA ->
               ToLower (Name q) = ToLower (hostname z) ->
               Records ToLower z q
               = map (A (mkHdr (hostname z) DNS.dnsTypeA 1 120 0))
                     (List.filter (fun ip => isIPv4 ip && negb (IsLoopback ip)) (ips z))).
  { intros Ht Hn. unfold Records. rewrite Hn, String.eqb_refl, Ht. cbn [negb].
    change (DNS.dnsTypeA =? DNS.dnsTypeA) with true. cbv iota.
    rewrite fold_A. cbn [app].
    destruct (filter_routable isIPv4 (ips z) Hr) as [_ ->]. reflexivity. }
  assert (HAAAA : Type_ q = DNS.dnsTypeAAAA ->
               ToLower (Name q) = ToLower (hostname z) ->
               Records ToLower z q
               = map (AAAA (mkHdr (hostname z) DNS.dnsTypeAAAA 1 120 0))
                     (List.filter (fun ip => negb (isIPv4 ip) && negb (IsLoopback ip)
                                        && negb (IsLinkLocalUnicast ip)) (ips z))).
  { intros Ht Hn. unfold Records. rewrite Hn, String.eqb_refl, Ht. cbn [negb].
    change (DNS.dnsTypeAAAA =? DNS.dnsTypeA) with false.
    change (DNS.dnsTypeAAAA =? DNS.dnsTypeAAAA) with true. cbv iota.
    rewrite fold_AAAA. cbn [app].
    destruct (filter_routable (fun ip => negb (isIPv4 ip)) (ips z) Hr) as [<- _].
    reflexivity. }
  assert (HO : Type_ q <> DNS.dnsTypeA -> Type_ q <> DNS.dnsTypeAAAA ->
               Records ToLower z q = []).
  { intros H1 H2. unfold Records.
    destruct (negb (ToLower (Name q) =? ToLower (hostname z))%string); [reflexivity|].
    destruct (Z.eqb_spec (Type_ q) DNS.dnsTypeA); [contradiction|].
    destruct (Z.eqb_spec (Type_ q) DNS.dnsTypeAAAA); [contradiction|].
    reflexivity. }
  assert (HN : Records ToLower z q <> [] -> ToLower (Name q) = ToLower (hostname z)).
  { intros Hne. unfold Records in Hne.
    destruct (String.eqb_spec (ToLower (Name q)) (ToLower (hostname z))) as [E|_];
      [exact E|]. cbn [negb] in Hne. contradiction. }
  split.
  { rewrite Hh. unfold NewMatterZone. rewrite updateIPs_hostname. subst base.
    cbn [hostname]. destruct (HasSuffix _ ".local"); reflexivity. }
  split; [exact HN|].
  split; [intros Hn; repeat split; auto|].
  split; [exact Hr|].
  destruct (String.eqb_spec (ToLower (Name q)) (ToLower (hostname z))) as [Hn|Hn].
  - destruct (Z.eq_dec (Type_ q) DNS.dnsTypeA) as [Ha|Ha].
    { rewrite (HA Ha Hn). apply Forall_map, Forall_forall. reflexivity. }
    destruct (Z.eq_dec (Type_ q) DNS.dnsTypeAAAA) as [Hb|Hb].
    { rewrite (HAAAA Hb Hn). apply Forall_map, Forall_forall. reflexivity. }
    rewrite (HO Ha Hb). constructor.
  - unfold Records.
    destruct (String.eqb_spec (ToLower (Name q)) (ToLower (hostname z)));
      [contradiction|constructor].
Qed.

End WithToLower.

Lemma Records_spec_witness :
  let z := NewMatterZone "Test" sample_interfaces in
  hostname z = "Test.local"%string
  /\ Records ToLowerASCII z (mkQ "tEST.LOCAL" 1 1)
     = [ A (mkHdr "Test.local" 1 1 120 0) [x0a; x00; x00; x01];
         A (mkHdr "Test.local" 1 1 120 0) [xc0; xa8; x01; x07] ]
  /\ Records ToLowerASCII z (mkQ "test.local" 12 1) = [].
Proof.
  pose proof (Records_spec ToLowerASCII "Test" sample_interfaces []
                (mkQ "tEST.LOCAL" 1 1)) as (H1 & _ & H3 & _).
  pose proof (Records_spec ToLowerASCII "Test" sample_interfaces []
                (mkQ "test.local" 12 1)) as (_ & _ & H3' & _).
  cbv zeta. split; [exact H1|]. split.
  - destruct (H3 eq_refl) as (HA & _). exact (HA eq_refl).
  - destruct (H3' eq_refl) as (_ & _ & HO). apply HO; discriminate.
Defined.

(** C5, as stated, fails for the empty configured hostname: the zone
    answers for matter-server.local, which is not the configured value
    with .local appended. *)
Lemma Records_empty_hostname_default :
  HasSuffix "" ".local" = false
  /\ Records ToLowerASCII (NewMatterZone "" sample_interfaces)
             (mkQ "matter-server.local" 1 1) <> []
  /\ ToLowerASCII "matter-server.local" <> ToLowerASCII ("" ++ ".local").
Proof.
  split; [reflexivity|]. split; discriminate.
Qed.

End ZoneFacts.

(** ** The session registry *)

Module WSFacts.
Import WS WSSamples.

Lemma close_closed (w : World) (p : nat) (c : Connection) :
  heap w !! p = Some c -> c_done c = true -> close p w = Done tt w.
Proof.
  intros Hp Hd. unfold close. rewrite Hp, Hd. reflexivity.
Qed.


Lemma lock_free : Lock (mkMu 0 false) = Some (mkMu 0 true).
Proof. reflexivity. Qed.



(** Under a held read lock a [close] never reaches the registry: it
    returns at once on a closed session and blocks on the write lock
    otherwise. *)
Lemma close_under_read_lock (p : nat) (w : World) :
  (0 < readers (connectionsMu w))%nat ->
  connections (world_of (close p w)) = connections w
  /\ connectionsMu (world_of (close p w)) = connectionsMu w.
Proof.
  intros Hr. destruct w as [h cs [r wr] ecs emu sp tr]. cbn in Hr.
  destruct r as [|r]; [lia|].
  unfold close. cbn [heap].
  destruct (h !! p) as [c|]; [|split; reflexivity].
  destruct (c_done c); [split; reflexivity|].
  destruct (c_unsubscribe c) as [id|]; [|split; reflexivity].
  unfold unsubscribe. cbn [eventMu emit].
  destruct (Lock emu); split; reflexivity.
Qed.

Lemma try_send_under_read_lock (data : string) (p : nat) (w : World) :
  (0 < readers (connectionsMu w))%nat ->
  connections (world_of (try_send data p w)) = connections w
  /\ connectionsMu (world_of (try_send data p w)) = connectionsMu w.
Proof.
  intros Hr. unfold try_send.
  destruct (heap w !! p) as [c|]; [|split; reflexivity].
  destruct (ch_closed (c_send c)); [split; reflexivity|].
  destruct (List.length (ch_buf (c_send c)) <? ch_cap (c_send c))%nat;
    [split; reflexivity|].
  apply close_under_read_lock, Hr.
Qed.

Lemma broadcast_loop_under_read_lock (data : string) (ps : list nat) (w : World) :
  (0 < readers (connectionsMu w))%nat ->
  connections (world_of (broadcast_loop data ps w)) = connections w.
Proof.
  revert w. induction ps as [|p ps IH]; intros w Hr; [reflexivity|].
  cbn [broadcast_loop].
  destruct (try_send_under_read_lock data p w Hr) as [Hc Hm].
  destruct (try_send data p w) as [[] w'|w'|e w']; cbn [world_of] in *;
    try exact Hc.
  rewrite IH by (rewrite Hm; exact Hr). exact Hc.
Qed.

(** No broadcast removes a session from the registry. *)
Lemma BroadcastEvent_keeps_registry {EventMessage : Type}
    (json_Marshal : EventMessage -> option string) (event : EventMessage)
    (w : World) :
  connections (world_of (BroadcastEvent json_Marshal event w)) = connections w.
Proof.
  unfold BroadcastEvent.
  destruct (json_Marshal event) as [data|]; [|reflexivity].
  unfold RLock. cbn [emit connectionsMu].
  destruct (writer (connectionsMu w)); [reflexivity|].
  pose proof (broadcast_loop_under_read_lock data
                (map snd (map_to_list (connections w)))
                (set_connectionsMu (mkMu (S (readers (connectionsMu w))) false)
                                   (emit EffMarshal w))) as H.
  cbn [emit set_connectionsMu connections connectionsMu readers] in H.
  specialize (H ltac:(lia)).
  cbn [emit connections].
  destruct (broadcast_loop _ _ _) as [[] w'|w'|e w']; cbn [world_of] in *; exact H.
Qed.

(** C4, at the failing input. With one live session whose queue is full,
    [BroadcastEvent] takes the read lock of the registry and calls
    [close], which cancels the session and then waits for the write lock
    of the same registry: the call never returns, the session stays in
    the registry, its socket stays open and the read lock stays held. *)
Theorem BroadcastEvent_full_queue_blocks :
  exists w' : World,
    BroadcastEvent marshal_text "{}"%string one_full_session = Blocked w'
    /\ connections w' = connections one_full_session
    /\ GetConnectionCount w' = 1
    /\ c_sock_closed <$> heap w' !! 0 = Some false
    /\ c_done <$> heap w' !! 0 = Some true
    /\ connectionsMu w' = mkMu 1 false.
Proof.
  eexists. split; [vm_compute; reflexivity|].
  repeat split; vm_compute; reflexivity.
Qed.

End WSFacts.

(** ** The command dispatcher *)

Module ServerFacts.
Import Server ServerSamples.
Local Open Scope Z_scope.

Section WithFloatConversion.

Variable int_of_unrepresentable : spec_float -> Z.

Abbreviation parseNodeID := (parseNodeID int_of_unrepresentable).
Abbreviation handleGetNode := (handleGetNode int_of_unrepresentable).
Abbreviation handlePingNode := (handlePingNode int_of_unrepresentable).

(** [parseNodeID] returns an identifier or an error. *)
Lemma parseNodeID_total (args : gmap string value) :
  (exists i, parseNodeID args = Ok i) \/ (exists e, parseNodeID args = Err e).
Proof.
  unfold Server.parseNodeID.
  destruct (args !! "node_id"%string) as [[f|i|i|n|s|b| |]|]; eauto;
    destruct (Number_Int64 _); eauto.
Qed.



End WithFloatConversion.



(** *** Copies and aliases *)

(** A record that the [nodes] map does not point to can be written
    without the registry changing. *)
Lemma set_node_unreferenced (q : nat) (node : MatterNodeData) (st : State) :
  (forall i, nodes st !! i <> Some q) ->
  registry_view (set_node q node st) = registry_view st.
Proof.
  intros Hq. unfold registry_view. apply map_eq. intros i.
  rewrite !lookup_omap. cbn [nodes set_node set_nodeObjs nodeObjs mapObjs].
  destruct (nodes st !! i) as [p|] eqn:Ei; [|reflexivity]. cbn.
  assert (p <> q) by (intros ->; exact (Hq i Ei)).
  rewrite lookup_insert_ne by congruence. reflexivity.
Qed.

Lemma fresh_unreferenced (st : State) :
  wf_state st -> forall i, nodes st !! i <> Some (fresh (dom (nodeObjs st))).
Proof.
  intros Hwf i Hi. apply Hwf in Hi. apply elem_of_dom in Hi.
  exact (is_fresh _ Hi).
Qed.

(** The lookup itself leaves the registry as it was, and so does any
    assignment to the fields of the returned record. *)
Lemma handleGetNode_frame (U : spec_float -> Z) (args : gmap string value)
    (st st' : State) (q : nat) :
  wf_state st ->
  handleGetNode U args st = Ok (RNode q, st') ->
  registry_view st' = registry_view st
  /\ forall node, registry_view (set_node q node st') = registry_view st.
Proof.
  intros Hwf H. unfold handleGetNode in H.
  destruct (parseNodeID U args) as [i| | |]; try discriminate.
  destruct (nodes st !! i) as [p|]; [|discriminate].
  destruct (nodeObjs st !! p) as [n|]; [|discriminate].
  unfold copy_node in H. injection H as <- <-.
  pose proof (fresh_unreferenced st Hwf) as Hq.
  split.
  - apply (set_node_unreferenced _ n st Hq).
  - intros node.
    assert (E : set_node (fresh (dom (nodeObjs st))) node
                  (set_nodeObjs (<[fresh (dom (nodeObjs st)) := n]> (nodeObjs st)) st)
                = set_node (fresh (dom (nodeObjs st))) node st).
    { unfold set_node, set_nodeObjs. cbn. rewrite insert_insert_eq. reflexivity. }
    rewrite E. apply (set_node_unreferenced _ node st Hq).
Qed.

(** C8, at the failing input. get_node, get_nodes and diagnostics on a
    server holding node 1 return a record whose attributes map is the
    registry's own map: the record is a new object and the lookup leaves
    the registry as it was, but a write to an entry of the returned
    record's attributes is seen in the registry. *)
Theorem lookups_share_attributes :
  forall U : spec_float -> Z,
    let args : gmap string value := {[ "node_id"%string := VInt 1 ]} in
    let stored := mkNode 1 0 0 6 true false (Some 0%nat) None in
    exists (st' st'' : State),
      handleGetNode U args one_node = Ok (RNode 1%nat, st')
      /\ handleGetNodes one_node = Ok (RNodes [1%nat], st')
      /\ handleServerDiagnostics one_node
         = Ok (RDiagnostics sample_info [stored] [], st')
      /\ registry_view st' = registry_view one_node
      /\ registry_view one_node !! 1
         = Some (stored, Some {[ "0/40/1"%string := VString "Acme" ]})
      /\ set_attribute 1 "0/40/1" (VString "Evil") st' = Ok st''
      /\ registry_view st'' !! 1
         = Some (stored, Some {[ "0/40/1"%string := VString "Evil" ]})
      /\ registry_view st'' <> registry_view one_node.
Proof.
  intros U args stored.
  eexists. eexists.
  split; [vm_compute; reflexivity|].
  split; [vm_compute; reflexivity|].
  split; [vm_compute; reflexivity|].
  split; [vm_compute; reflexivity|].
  split; [vm_compute; reflexivity|].
  split; [vm_compute; reflexivity|].
  split; [vm_compute; reflexivity|].
  intros H. apply (f_equal (fun m => m !! 1)) in H.
  vm_compute in H. discriminate H.
Qed.

End ServerFacts.

(** ** More on the DNS codec *)

Module DNSMore.
Import GoBytes DNS DNSSamples MoreSamples DNSFacts Packets Responder.
Local Open Scope Z_scope.

Lemma idx_in_range {E} (buf : list byte) (i : Z) :
  0 <= i < len buf -> exists b, idx (E := E) buf i = Ok b /\ nth_error buf (Z.to_nat i) = Some b.
Proof.
  intros [H0 H1]. unfold idx.
  destruct (Z.ltb_spec i 0); [lia|].
  destruct (nth_error buf (Z.to_nat i)) as [b|] eqn:E1; [eauto|].
  apply nth_error_None in E1. unfold len in H1. lia.
Qed.

Lemma nth_error_skipn_Forall {A} (P : A -> Prop) (l : list A) (k n : nat) (x : A) :
  Forall P (skipn k l) -> (k <= n)%nat -> nth_error l n = Some x -> P x.
Proof.
  intros HF Hk Hn.
  rewrite <- (firstn_skipn k l) in Hn.
  assert (Hl : (k <= List.length l)%nat).
  { apply Nat.lt_le_incl. apply Nat.le_lt_trans with n; [exact Hk|].
    apply nth_error_Some.
    rewrite <- (firstn_skipn k l). congruence. }
  rewrite nth_error_app2 in Hn by (rewrite firstn_length_le; lia).
  rewrite List.Forall_forall in HF. apply HF. eapply nth_error_In. exact Hn.
Qed.

(** Without pointer bytes from [k] on, the loop of [parseName] started at
    or behind [k] comes to an end within the bytes left: it returns a
    name and an offset inside the buffer, or the parse error. *)
Lemma parseName_loop_plain (buf : list byte) (k : nat) :
  Forall plain (skipn k buf) ->
  forall (fuel : nat) (st : pn_state),
    Z.of_nat k <= pn_offset st <= len buf ->
    pn_jumped st = false ->
    (Z.to_nat (len buf - pn_offset st) <= fuel)%nat ->
    (exists name off, parseName_loop fuel buf st = Ok (name, off)
                      /\ pn_offset st <= off <= len buf)
    \/ parseName_loop fuel buf st = Err ErrNameExtendsPastBuffer.
Proof.
  intros Hplain. induction fuel as [|fuel IH]; intros st Hoff Hj Hfuel.
  - cbn [parseName_loop].
    destruct (Z.ltb_spec (pn_offset st) (len buf)); [lia|].
    left. unfold parseName_finish. rewrite Hj. eexists _, _. split; [reflexivity|lia].
  - cbn [parseName_loop].
    destruct (Z.ltb_spec (pn_offset st) (len buf)) as [Hlt|Hge].
    2:{ left. unfold parseName_finish. rewrite Hj. eexists _, _. split; [reflexivity|lia]. }
    unfold parseName_body.
    destruct (idx_in_range (E := dns_error) buf (pn_offset st)) as (b & Hb & Hnth); [lia|].
    rewrite Hb.
    destruct (Z.eqb_spec (u8 b) 0) as [Hz|Hnz].
    { left. unfold parseName_finish. cbn [pn_jumped pn_offset]. rewrite Hj.
      eexists _, _. split; [reflexivity|lia]. }
    assert (Hp : plain b).
    { apply (nth_error_skipn_Forall plain buf k (Z.to_nat (pn_offset st)) b Hplain);
        [lia|exact Hnth]. }
    destruct (Z.eqb_spec (Z.land (u8 b) 192) 192) as [Hptr|_]; [contradiction|].
    destruct (Z.geb_spec (pn_offset st + 1 + u8 b) (len buf)) as [Hpast|Hin].
    { right. reflexivity. }
    pose proof (u8_range b) as Hu.
    destruct (IH (mkPn (pn_name st ++
                          [string_of_list_byte
                             (slice buf (pn_offset st + 1) (pn_offset st + 1 + u8 b))])
                       (pn_original st) (pn_jumped st) (pn_offset st + 1 + u8 b)))
      as [(name & off & Hr & Ho)|Hr].
    + cbn [pn_offset]. lia.
    + exact Hj.
    + cbn [pn_offset]. lia.
    + left. exists name, off. split; [exact Hr|]. cbn [pn_offset] in Ho. lia.
    + right. exact Hr.
Qed.

Lemma parseQuestions_plain (buf : list byte) (fuel : nat) :
  Forall plain (skipn 12 buf) ->
  (List.length buf <= fuel)%nat ->
  forall (n : nat) (offset : Z) (qs : list dnsQuestion),
    12 <= offset <= len buf ->
    (exists qs', parseQuestions fuel buf n offset qs = Ok qs')
    \/ (exists e, parseQuestions fuel buf n offset qs = Err e).
Proof.
  intros Hplain Hfuel. induction n as [|n IH]; intros offset qs Hoff.
  - left. eexists. reflexivity.
  - cbn [parseQuestions]. unfold parseName.
    destruct (parseName_loop_plain buf 12 Hplain fuel (mkPn [] offset false offset))
      as [(name & off & Hr & Ho)|Hr].
    + cbn [pn_offset]. lia.
    + reflexivity.
    + cbn [pn_offset]. unfold len in *. lia.
    + rewrite Hr. cbn [obind pn_offset] in *.
      destruct (Z.gtb_spec (off + 4) (len buf)) as [Hgt|Hle];
        [right; eexists; reflexivity|].
      destruct (idx_in_range (E := dns_error) buf off) as (t0 & -> & _); [lia|].
      destruct (idx_in_range (E := dns_error) buf (off + 1)) as (t1 & -> & _); [lia|].
      destruct (idx_in_range (E := dns_error) buf (off + 2)) as (c0 & -> & _); [lia|].
      destruct (idx_in_range (E := dns_error) buf (off + 3)) as (c1 & -> & _); [lia|].
      cbn [obind]. apply IH. lia.
    + rewrite Hr. right. eexists. reflexivity.
Qed.

(** X1. On a packet with no pointer byte behind its header, [parseDNSMessage]
    with as much fuel as the packet has bytes returns a message or a parse
    error: it does not panic and does not run on. *)
Theorem parseDNSMessage_plain_total :
  forall (buf : list byte) (fuel : nat),
    Forall plain (skipn 12 buf) ->
    (List.length buf <= fuel)%nat ->
    (exists msg, parseDNSMessage fuel buf = Ok msg)
    \/ (exists e, parseDNSMessage fuel buf = Err e).
Proof.
  intros buf fuel Hplain Hfuel. unfold parseDNSMessage.
  destruct (Z.ltb_spec (len buf) 12) as [Hshort|Hlong];
    [right; eexists; reflexivity|].
  destruct (idx_in_range (E := dns_error) buf 0) as (b0 & -> & _); [lia|].
  destruct (idx_in_range (E := dns_error) buf 1) as (b1 & -> & _); [lia|].
  destruct (idx_in_range (E := dns_error) buf 2) as (b2 & -> & _); [lia|].
  destruct (idx_in_range (E := dns_error) buf 3) as (b3 & -> & _); [lia|].
  destruct (idx_in_range (E := dns_error) buf 4) as (b4 & -> & _); [lia|].
  destruct (idx_in_range (E := dns_error) buf 5) as (b5 & -> & _); [lia|].
  cbn [obind].
  destruct (parseQuestions_plain buf fuel Hplain Hfuel (Z.to_nat (be16 b4 b5)) 12 [])
    as [(qs & ->)|(e & ->)]; [lia| |].
  - left. eexists. reflexivity.
  - right. eexists. reflexivity.
Qed.


Lemma parseDNSMessage_plain_total_witness :
  (exists msg, parseDNSMessage 28 plain_query_packet = Ok msg)
  \/ (exists e, parseDNSMessage 28 plain_query_packet = Err e).
Proof.
  apply (parseDNSMessage_plain_total plain_query_packet 28).
  - repeat constructor; intros H; vm_compute in H; discriminate H.
  - vm_compute. lia.
Defined.

Lemma split_dot_app_dot (s : string) :
  split_dot (s ++ ".") = split_dot s ++ [EmptyString].
Proof.
  induction s as [|c s IH]; [reflexivity|].
  change (String c s ++ ".")%string with (String c (s ++ ".")).
  cbn [split_dot]. rewrite IH.
  destruct (Ascii.eqb c "."); [reflexivity|].
  destruct (split_dot s) as [|p ps] eqn:E; [exfalso; eapply split_dot_nonempty; eauto|].
  reflexivity.
Qed.

(** X2. A trailing dot does not change the wire form of a name. *)
Theorem encodeName_trailing_dot :
  forall name : string, encodeName (name ++ ".") = encodeName name.
Proof.
  intros name. unfold encodeName.
  destruct (String.eqb_spec name "") as [->|Hne]; [reflexivity|].
  destruct (String.eqb_spec (name ++ ".") ".") as [Habs|_].
  { destruct name as [|c [|c' s]];
      [contradiction|discriminate Habs|discriminate Habs]. }
  rewrite split_dot_app_dot, fold_left_app. cbn [fold_left String.eqb].
  destruct (String.eqb_spec name ".") as [->|_]; reflexivity.
Qed.

Lemma length_append (s t : string) :
  String.length (s ++ t) = (String.length s + String.length t)%nat.
Proof.
  induction s as [|c s IH]; [reflexivity|].
  change (String c s ++ t)%string with (String c (s ++ t)).
  cbn [String.length]. rewrite IH. reflexivity.
Qed.

Lemma len_labels (labels : list string) :
  labels <> [] ->
  len (flat_map enc_label labels)
  = Z.of_nat (String.length (join_dot labels)) + 1.
Proof.
  unfold join_dot.
  induction labels as [|l ls IH]; [congruence|]. intros _.
  destruct ls as [|l' ls].
  - cbn [flat_map String.concat]. rewrite app_nil_r, len_enc_label. lia.
  - rewrite concat_cons by discriminate.
    change (flat_map enc_label (l :: l' :: ls))
      with (enc_label l ++ flat_map enc_label (l' :: ls)).
    rewrite len_app, len_enc_label, IH by discriminate.
    rewrite !length_append. cbn [String.length]. lia.
Qed.

(** X3. The wire form of a non-empty name without empty labels is two bytes
    longer than the name, and [parseName] reads the name back and stops
    that far behind its start. *)
Theorem encodeName_length :
  forall (name : string) (pre post : list byte) (fuel : nat),
    wf_name name ->
    name <> EmptyString ->
    (String.length name + 2 <= fuel)%nat ->
    len (encodeName name) = Z.of_nat (String.length name) + 2
    /\ parseName fuel (pre ++ encodeName name ++ post) (len pre)
       = Ok (name, len pre + Z.of_nat (String.length name) + 2).
Proof.
  intros name pre post fuel Hwf Hne Hfuel.
  assert (Hlen : len (encodeName name) = Z.of_nat (String.length name) + 2).
  { destruct (labels_of_wf name Hwf) as (_ & He & Hj).
    rewrite He, len_app, len_labels, Hj.
    - change (len [x00]) with 1. lia.
    - unfold labels_of. destruct (String.eqb_spec name ""); [contradiction|].
      apply split_dot_nonempty. }
  split; [exact Hlen|].
  rewrite parseName_encodeName; [|assumption|unfold len in Hlen; lia].
  rewrite Hlen. f_equal. f_equal. lia.
Qed.

Lemma encodeName_length_witness :
  len (encodeName "test.local") = 12
  /\ parseName 12 ([x00; x00] ++ encodeName "test.local" ++ [xff]) 2
     = Ok ("test.local"%string, 14).
Proof.
  apply (encodeName_length "test.local" [x00; x00] [xff] 12).
  - apply wf_name_test_local.
  - discriminate.
  - simpl. lia.
Defined.

(** X4. The three 16-bit fields of an SRV record read back from the first six
    bytes, and the target name reads back from offset 6 to the end. *)
Theorem encodeSRV_fields :
  forall (priority weight port : Z) (target : string) (fuel : nat),
    0 <= priority < 65536 -> 0 <= weight < 65536 -> 0 <= port < 65536 ->
    wf_name target ->
    (List.length (encodeName target) <= fuel)%nat ->
    let buf := encodeSRV priority weight port target in
    len buf = 6 + len (encodeName target)
    /\ be16 (nth 0 buf x00) (nth 1 buf x00) = priority
    /\ be16 (nth 2 buf x00) (nth 3 buf x00) = weight
    /\ be16 (nth 4 buf x00) (nth 5 buf x00) = port
    /\ parseName fuel buf 6 = Ok (target, len buf).
Proof.
  intros priority weight port target fuel Hp Hw Hpo Hwf Hfuel buf.
  subst buf. unfold encodeSRV.
  split; [rewrite len_app; reflexivity|].
  split; [cbn [nth app]; apply be16_to_byte; assumption|].
  split; [cbn [nth app]; apply be16_to_byte; assumption|].
  split; [cbn [nth app]; apply be16_to_byte; assumption|].
  set (pre := [to_byte (Z.shiftr priority 8); to_byte priority;
               to_byte (Z.shiftr weight 8); to_byte weight;
               to_byte (Z.shiftr port 8); to_byte port]).
  pose proof (parseName_encodeName target pre [] fuel Hwf Hfuel) as H.
  rewrite app_nil_r in H. change (len pre) with 6 in H.
  rewrite H, len_app. reflexivity.
Qed.

Lemma encodeSRV_fields_witness :
  let buf := encodeSRV 10 20 5540 "test.local" in
  len buf = 6 + len (encodeName "test.local")
  /\ be16 (nth 0 buf x00) (nth 1 buf x00) = 10
  /\ be16 (nth 2 buf x00) (nth 3 buf x00) = 20
  /\ be16 (nth 4 buf x00) (nth 5 buf x00) = 5540
  /\ parseName 12 buf 6 = Ok ("test.local"%string, len buf).
Proof.
  apply (encodeSRV_fields 10 20 5540 "test.local" 12); try lia.
  - apply wf_name_test_local.
  - vm_compute. lia.
Defined.

End DNSMore.

(** ** The mDNS responder *)

Module ResponderFacts.
Import GoBytes DNS Zone Responder DNSFacts ZoneFacts ZoneSamples MoreSamples.
Local Open Scope Z_scope.

Lemma answers_for_map (zone : Question -> list Record_) (q : dnsQuestion)
    (acc : list dnsRecord) :
  answers_for zone q acc
  = acc ++ map (fun r => mkRecord (h_Name (Header r)) (h_Type (Header r))
                                  (h_Class (Header r)) (h_TTL (Header r))
                                  (encodeRecordData r))
               (zone (mkQ (q_Name q) (q_Type q) (q_Class q))).
Proof.
  unfold answers_for. revert acc.
  induction (zone (mkQ (q_Name q) (q_Type q) (q_Class q))) as [|r rs IH];
    intros acc; cbn [fold_left map].
  - rewrite app_nil_r. reflexivity.
  - rewrite IH, <- app_assoc. reflexivity.
Qed.

(** A packet written by [sendResponse] for a response of [handleQuery],
    received back, is parsed without any fuel and dropped as a response,
    whatever the zone. *)
Lemma response_ignored (zone zone' : Question -> list Record_)
    (msg : dnsMessage) (fuel : nat) :
  parsePacket fuel zone' (encodeDNSMessage (response_for zone msg)) = Ok Ignore.
Proof.
  unfold parsePacket. rewrite encodeDNSMessage_app.
  cbn [response_for Questions flat_map app].
  unfold parseDNSMessage.
  set (rest := flat_map encodeRecord _).
  assert (Hlen : (len (encodeHeader (response_for zone msg) ++ rest) <? 12) = false).
  { apply Z.ltb_ge. rewrite len_app. pose proof (len_nonneg rest).
    change (len (encodeHeader (response_for zone msg))) with 12. lia. }
  cbn [response_for] in Hlen. rewrite Hlen.
  reflexivity.
Qed.

Lemma idx_Ok {E} (buf : list byte) (i : Z) (b : byte) :
  idx (E := E) buf i = Ok b -> 0 <= i < len buf /\ nth_error buf (Z.to_nat i) = Some b.
Proof.
  unfold idx. destruct (Z.ltb_spec i 0); [discriminate|].
  destruct (nth_error buf (Z.to_nat i)) as [b'|] eqn:E1; [|discriminate].
  intros [= <-]. split; [|reflexivity].
  assert ((Z.to_nat i < List.length buf)%nat) by (apply nth_error_Some; congruence).
  unfold len. lia.
Qed.

(** What a parsed message says about the header bytes. *)
Lemma parseDNSMessage_header (fuel : nat) (buf : list byte) (msg : dnsMessage) :
  parseDNSMessage fuel buf = Ok msg ->
  12 <= len buf
  /\ exists b0 b1 b2 b3 b4 b5,
      nth_error buf 0 = Some b0 /\ nth_error buf 1 = Some b1
      /\ nth_error buf 2 = Some b2 /\ nth_error buf 3 = Some b3
      /\ nth_error buf 4 = Some b4 /\ nth_error buf 5 = Some b5
      /\ ID msg = be16 b0 b1
      /\ Response msg = negb (Z.land (u8 b2) 128 =? 0)
      /\ Opcode msg = Z.land (Z.shiftr (u8 b2) 3) 15
      /\ Rcode msg = Z.land (u8 b3) 15
      /\ List.length (Questions msg) = Z.to_nat (be16 b4 b5).
Proof.
  intros H. unfold parseDNSMessage in H.
  destruct (Z.ltb_spec (len buf) 12) as [|Hlen]; [discriminate|].
  split; [exact Hlen|].
  destruct (idx buf 0) as [b0| | |] eqn:E0; try discriminate.
  destruct (idx buf 1) as [b1| | |] eqn:E1; try discriminate.
  destruct (idx buf 2) as [b2| | |] eqn:E2; try discriminate.
  destruct (idx buf 3) as [b3| | |] eqn:E3; try discriminate.
  destruct (idx buf 4) as [b4| | |] eqn:E4; try discriminate.
  destruct (idx buf 5) as [b5| | |] eqn:E5; try discriminate.
  cbn [obind] in H.
  destruct (parseQuestions fuel buf (Z.to_nat (be16 b4 b5)) 12 []) as [qs| | |] eqn:Eq;
    try discriminate.
  cbn [obind] in H. injection H as <-.
  exists b0, b1, b2, b3, b4, b5.
  apply idx_Ok in E0, E1, E2, E3, E4, E5.
  repeat split; try tauto.
  cbn [Questions].
  assert (Hq : forall n off acc qs',
             parseQuestions fuel buf n off acc = Ok qs' ->
             List.length qs' = (List.length acc + n)%nat).
  { induction n as [|n IH]; intros off acc qs' Hp; cbn [parseQuestions] in Hp.
    - injection Hp as <-. lia.
    - destruct (parseName fuel buf off) as [[name no]| | |]; try discriminate.
      cbn [obind] in Hp.
      destruct (no + 4 >? len buf); [discriminate|].
      destruct (idx buf no); try discriminate.
      destruct (idx buf (no + 1)); try discriminate.
      destruct (idx buf (no + 2)); try discriminate.
      destruct (idx buf (no + 3)); try discriminate.
      cbn [obind] in Hp. apply IH in Hp. rewrite length_app in Hp. simpl in Hp. lia. }
  apply Hq in Eq. simpl in Eq. exact Eq.
Qed.

(** X5. The server answers only standard queries: a packet it answers has at
    least the twelve header bytes, the response bit and the four opcode
    bits clear, the response code zero and a question count that is not
    zero. *)
Theorem parsePacket_answers_only_queries :
  forall (fuel : nat) (zone : Question -> list Record_) (buf out : list byte),
    parsePacket fuel zone buf = Ok (Send out) ->
    12 <= len buf
    /\ exists b2 b3 b4 b5,
        nth_error buf 2 = Some b2 /\ nth_error buf 3 = Some b3
        /\ nth_error buf 4 = Some b4 /\ nth_error buf 5 = Some b5
        /\ Z.land (u8 b2) 248 = 0
        /\ Z.land (u8 b3) 15 = 0
        /\ be16 b4 b5 <> 0.
Proof.
  intros fuel zone buf out H. unfold parsePacket in H.
  destruct (parseDNSMessage fuel buf) as [msg| | |] eqn:Ep; try discriminate.
  cbn [obind] in H.
  destruct (parseDNSMessage_header fuel buf msg Ep)
    as (Hlen & b0 & b1 & b2 & b3 & b4 & b5 & _ & _ & H2 & H3 & H4 & H5
        & _ & Hr & Ho & Hc & Hq).
  split; [exact Hlen|].
  exists b2, b3, b4, b5. repeat split; try assumption.
  - rewrite Hr, Ho in H.
    destruct (Z.eqb_spec (Z.land (u8 b2) 128) 0) as [E1|]; [|discriminate H].
    cbn [negb] in H.
    destruct (Z.eqb_spec (Z.land (Z.shiftr (u8 b2) 3) 15) 0) as [E2|]; [|discriminate H].
    clear -E1 E2. destruct b2; vm_compute in E1, E2 |- *; congruence.
  - rewrite Hc in H.
    destruct (Response msg); [discriminate H|].
    destruct (negb (Opcode msg =? 0)); [discriminate H|].
    destruct (Z.eqb_spec (Z.land (u8 b3) 15) 0) as [E|]; [exact E|discriminate H].
  - intros Hz.
    destruct (Response msg); [discriminate H|].
    destruct (negb (Opcode msg =? 0)); [discriminate H|].
    destruct (negb (Rcode msg =? 0)); [discriminate H|].
    unfold handleQuery in H.
    rewrite Hz in Hq. unfold len in H. rewrite Hq in H. discriminate H.
Qed.

Lemma parsePacket_answers_only_queries_witness :
  12 <= len plain_query_packet
  /\ exists b2 b3 b4 b5,
      nth_error plain_query_packet 2 = Some b2
      /\ nth_error plain_query_packet 3 = Some b3
      /\ nth_error plain_query_packet 4 = Some b4
      /\ nth_error plain_query_packet 5 = Some b5
      /\ Z.land (u8 b2) 248 = 0
      /\ Z.land (u8 b3) 15 = 0
      /\ be16 b4 b5 <> 0.
Proof.
  apply (parsePacket_answers_only_queries 28
           (Records ToLowerASCII (NewMatterZone "test" sample_interfaces))
           plain_query_packet
           (encodeDNSMessage
              (response_for (Records ToLowerASCII (NewMatterZone "test" sample_interfaces))
                            sample_query))).
  vm_compute. reflexivity.
Defined.

(** X6. The server does not answer its own answers: a packet it sends,
    received back by any server of this program, is dropped as a
    response; and the packet carries the identifier of the query it
    answers. *)
Theorem parsePacket_drops_own_responses :
  forall (fuel : nat) (zone : Question -> list Record_) (buf out : list byte),
    parsePacket fuel zone buf = Ok (Send out) ->
    (forall (fuel' : nat) (zone' : Question -> list Record_),
        parsePacket fuel' zone' out = Ok Ignore)
    /\ firstn 2 out = firstn 2 buf.
Proof.
  intros fuel zone buf out H. unfold parsePacket in H.
  destruct (parseDNSMessage fuel buf) as [msg| | |] eqn:Ep; try discriminate.
  cbn [obind] in H.
  destruct (Response msg); [discriminate H|].
  destruct (negb (Opcode msg =? 0)); [discriminate H|].
  destruct (negb (Rcode msg =? 0)); [discriminate H|].
  unfold handleQuery in H.
  destruct (len (Questions msg) =? 0); [discriminate H|].
  destruct (len (Answers (response_for zone msg)) >? 0); [|discriminate H].
  unfold sendResponse in H. injection H as <-.
  split; [intros fuel' zone'; apply response_ignored|].
  destruct (parseDNSMessage_header fuel buf msg Ep)
    as (Hlen & b0 & b1 & b2 & b3 & b4 & b5 & H0 & H1 & _ & _ & _ & _ & Hid & _).
  rewrite encodeDNSMessage_app. cbn [response_for encodeHeader ID app firstn].
  rewrite Hid.
  destruct buf as [|c0 [|c1 buf]]; try discriminate.
  cbn in H0, H1. injection H0 as ->. injection H1 as ->.
  cbn [firstn]. unfold be16.
  pose proof (u8_range b0) as R0. pose proof (u8_range b1) as R1.
  assert (Hs : Z.shiftl (u8 b0) 8 = u8 b0 * 256)
    by (rewrite Z.shiftl_mul_pow2 by lia; reflexivity).
  rewrite (Z.mod_small (Z.shiftl (u8 b0) 8)) by lia.
  rewrite lor_shift8 by lia.
  f_equal; [|f_equal].
  - rewrite Z.shiftr_div_pow2 by lia. change (2 ^ 8) with 256.
    replace ((u8 b0 * 256 + u8 b1) / 256) with (u8 b0)
      by (apply Z.div_unique with (u8 b1); lia).
    apply to_byte_u8.
  - unfold to_byte.
    replace ((u8 b0 * 256 + u8 b1) mod 256) with (u8 b1)
      by (apply Z.mod_unique with (u8 b0); lia).
    pose proof (to_byte_u8 b1) as Hb. unfold to_byte in Hb.
    rewrite Z.mod_small in Hb by lia. exact Hb.
Qed.

Lemma parsePacket_drops_own_responses_witness :
  let zone := Records ToLowerASCII (NewMatterZone "test" sample_interfaces) in
  let out := encodeDNSMessage (response_for zone sample_query) in
  (forall (fuel' : nat) (zone' : Question -> list Record_),
      parsePacket fuel' zone' out = Ok Ignore)
  /\ firstn 2 out = firstn 2 plain_query_packet.
Proof.
  apply (parsePacket_drops_own_responses 28
           (Records ToLowerASCII (NewMatterZone "test" sample_interfaces))
           plain_query_packet).
  vm_compute. reflexivity.
Defined.


Lemma To4_length (ip b : IP) : To4 ip = Some b -> List.length b = 4%nat.
Proof.
  unfold To4.
  destruct (Z.eqb_spec (len ip) 4) as [H4|_].
  { intros [= <-]. unfold len in H4. lia. }
  destruct (Z.eqb_spec (len ip) 16) as [H16|_]; [|discriminate].
  cbn [andb].
  destruct (forallb _ _ && _ && _); [|discriminate].
  intros [= <-]. unfold slice.
  rewrite length_firstn, length_skipn. unfold len in H16. lia.
Qed.

Lemma To16_length (ip b : IP) : To16 ip = Some b -> List.length b = 16%nat.
Proof.
  unfold To16.
  destruct (Z.eqb_spec (len ip) 4) as [H4|_].
  { intros [= <-]. unfold len in H4. cbn [app List.length]. lia. }
  destruct (Z.eqb_spec (len ip) 16) as [H16|_]; [|discriminate].
  intros [= <-]. unfold len in H16. lia.
Qed.

Section WithToLower.

Variable ToLower : string -> string.

(** X7. The packet of a well-formed standard query with the single question
    (name, A) gets, from a server on a [MatterZone], one response with the
    query's identifier, the response and authoritative bits, no question
    and one A record of four data bytes per known IPv4 address, when the
    name is the advertised hostname up to case and an IPv4 address is
    known; it gets no response otherwise. *)
Theorem parsePacket_matter_zone_A :
  forall (z : MatterZone) (qmsg : dnsMessage) (name : string) (cls : Z)
         (fuel : nat),
    wf_message qmsg ->
    Response qmsg = false -> Opcode qmsg = 0 -> Rcode qmsg = 0 ->
    Questions qmsg = [mkQuestion name dnsTypeA cls] ->
    (List.length (encodeDNSMessage qmsg) <= fuel)%nat ->
    let answers :=
      map (fun ip => mkRecord (hostname z) dnsTypeA 1 120 (bytes_or_nil (To4 ip)))
          (List.filter isIPv4 (ips z)) in
    parsePacket fuel (Records ToLower z) (encodeDNSMessage qmsg)
    = Ok (if String.eqb (ToLower name) (ToLower (hostname z))
             && negb (len answers =? 0)
          then Send (encodeDNSMessage
                       (mkMessage (ID qmsg) true 0 true false false false 0 []
                                  answers))
          else Ignore)
    /\ Forall (fun r => List.length (r_Data r) = 4%nat) answers.
Proof.
  intros z qmsg name cls fuel Hwf Hr Ho Hc Hq Hfuel answers.
  split.
  - unfold parsePacket. rewrite (parse_encode qmsg fuel Hwf Hfuel).
    unfold without_answers. cbn [obind Response Opcode Rcode].
    rewrite Hr, Ho, Hc. cbn [negb Z.eqb].
    unfold handleQuery. cbn [Questions]. rewrite Hq.
    change (len [mkQuestion name dnsTypeA cls] =? 0) with false. cbv iota.
    unfold sendResponse, response_for. cbn [Questions Answers ID fold_left].
    rewrite ?Hq. cbn [fold_left]. rewrite answers_for_map. cbn [app q_Name q_Type q_Class].
    unfold Records. cbn [Name Type_].
    destruct (String.eqb_spec (ToLower name) (ToLower (hostname z))) as [Hn|Hn];
      cbn [negb andb].
    + change (dnsTypeA =? dnsTypeA) with true. cbv iota.
      rewrite fold_A. cbn [app]. rewrite map_map. cbn [Header h_Name h_Type h_Class h_TTL encodeRecordData].
      change (List.filter (fun ip : IP => isIPv4 ip) (ips z))
        with (List.filter isIPv4 (ips z)).
      fold answers.
      destruct answers as [|a l]; [reflexivity|].
      change (len (a :: l) =? 0) with (Z.of_nat (S (List.length l)) =? 0).
      destruct (Z.eqb_spec (Z.of_nat (S (List.length l))) 0); [lia|].
      cbn [negb].
      destruct (Z.gtb_spec (len (a :: l)) 0) as [_|Hle]; [reflexivity|].
      unfold len in Hle. simpl in Hle. lia.
    + reflexivity.
  - subst answers. apply Forall_map. apply List.Forall_forall.
    intros ip Hin. apply filter_In in Hin. destruct Hin as [_ H4].
    cbn [r_Data]. unfold isIPv4 in H4.
    destruct (To4 ip) as [b|] eqn:E; [|discriminate].
    apply (To4_length ip b E).
Qed.

End WithToLower.

Lemma parsePacket_matter_zone_A_witness :
  parsePacket 28 (Records ToLowerASCII (NewMatterZone "test" sample_interfaces))
              (encodeDNSMessage sample_query)
  = Ok (Send (encodeDNSMessage
                (mkMessage 4660 true 0 true false false false 0 []
                   [ mkRecord "test.local" 1 1 120 [x0a; x00; x00; x01];
                     mkRecord "test.local" 1 1 120 [xc0; xa8; x01; x07] ]))).
Proof.
  destruct (parsePacket_matter_zone_A ToLowerASCII
              (NewMatterZone "test" sample_interfaces) sample_query
              "test.local" 1 28) as [H _].
  - unfold wf_message, sample_query. cbn.
    repeat split; try lia.
    constructor; [|constructor].
    repeat split; cbn; try lia. apply wf_name_test_local.
  - reflexivity.
  - reflexivity.
  - reflexivity.
  - reflexivity.
  - vm_compute. lia.
  - exact H.
Defined.

End ResponderFacts.

(** ** More on the mDNS zone *)

Module ZoneMore.
Import GoBytes Zone ZoneRefresh ZoneSamples ZoneFacts DNSMore.
Local Open Scope Z_scope.

Lemma substring_skip (s t : string) (k : nat) :
  String.substring (String.length s) k (s ++ t) = String.substring 0 k t.
Proof.
  induction s as [|c s IH]; [reflexivity|].
  change (String c s ++ t)%string with (String c (s ++ t)).
  cbn [String.length String.substring]. exact IH.
Qed.

Lemma substring_all (t : string) : String.substring 0 (String.length t) t = t.
Proof.
  induction t as [|c t IH]; [reflexivity|].
  cbn [String.length String.substring]. rewrite IH. reflexivity.
Qed.

Lemma HasSuffix_append (s t : string) : HasSuffix (s ++ t) t = true.
Proof.
  unfold HasSuffix. rewrite length_append.
  replace (String.length s + String.length t - String.length t)%nat
    with (String.length s) by lia.
  rewrite substring_skip, substring_all, String.eqb_refl.
  rewrite andb_true_r. apply Nat.leb_le. lia.
Qed.

(** X8. The advertised hostname is never empty and always ends in .local, and
    a zone configured with an advertised hostname advertises that very
    name: the suffix is not added twice. *)
Theorem NewMatterZone_hostname_normal :
  forall (cfg : string) (env env' : option (list Interface)),
    let h := hostname (NewMatterZone cfg env) in
    HasSuffix h ".local" = true
    /\ h <> EmptyString
    /\ hostname (NewMatterZone h env') = h.
Proof.
  intros cfg env env' h.
  assert (Hh : h = let base := if String.eqb cfg "" then "matter-server"%string else cfg in
                   if negb (HasSuffix base ".local") then (base ++ ".local")%string else base).
  { subst h. unfold NewMatterZone. rewrite updateIPs_hostname. reflexivity. }
  cbv zeta in Hh.
  assert (Hs : HasSuffix h ".local" = true).
  { rewrite Hh. destruct (HasSuffix _ ".local") eqn:E; cbn [negb].
    - exact E.
    - apply HasSuffix_append. }
  assert (Hne : h <> EmptyString).
  { intros He. rewrite He in Hs. discriminate Hs. }
  split; [exact Hs|]. split; [exact Hne|].
  unfold NewMatterZone. rewrite updateIPs_hostname. cbn [hostname].
  destruct (String.eqb_spec h "") as [|_]; [contradiction|].
  rewrite Hs. reflexivity.
Qed.

Lemma collect_addrs_flat_map (addrs : list Addr) (acc : list IP) :
  collect_addrs acc addrs = acc ++ flat_map kept_ip addrs.
Proof.
  unfold collect_addrs. revert acc.
  induction addrs as [|a addrs IH]; intros acc; cbn [fold_left flat_map].
  - rewrite app_nil_r. reflexivity.
  - rewrite IH. unfold kept_ip at 2.
    destruct (addr_ip a) as [ip|]; [|reflexivity].
    destruct (IsLoopback ip || IsLinkLocalUnicast ip); [reflexivity|].
    rewrite <- app_assoc. reflexivity.
Qed.

Lemma updateIPs_flat_map (z : MatterZone) (ifs : list Interface) :
  ips (updateIPs z (Some ifs)) = flat_map kept_ips ifs.
Proof.
  cbn [updateIPs ips].
  assert (H : forall acc,
             fold_left
               (fun acc iface =>
                  if (Z.land (Flags iface) FlagUp =? 0)
                     || negb (Z.land (Flags iface) FlagLoopback =? 0)
                  then acc
                  else match Addrs iface with
                       | None => acc
                       | Some addrs => collect_addrs acc addrs
                       end)
               ifs acc
             = acc ++ flat_map kept_ips ifs).
  { induction ifs as [|i ifs IH]; intros acc; cbn [fold_left flat_map].
    - rewrite app_nil_r. reflexivity.
    - rewrite IH. unfold kept_ips at 2.
      destruct ((Z.land (Flags i) FlagUp =? 0)
                || negb (Z.land (Flags i) FlagLoopback =? 0)); [reflexivity|].
      destruct (Addrs i); [|reflexivity].
      rewrite collect_addrs_flat_map, <- app_assoc. reflexivity. }
  apply (H []).
Qed.

(** X9. A refresh replaces the address list: after it the zone knows exactly
    the routable addresses of the interfaces that are up and are not
    loopback interfaces, whatever it knew before; a failed refresh leaves
    the zone as it was. *)
Theorem updateIPs_membership :
  forall (z : MatterZone) (ifs : list Interface) (ip : IP),
    (In ip (ips (updateIPs z (Some ifs))) <->
     exists iface addrs a,
       In iface ifs
       /\ Z.land (Flags iface) FlagUp <> 0
       /\ Z.land (Flags iface) FlagLoopback = 0
       /\ Addrs iface = Some addrs
       /\ In a addrs
       /\ addr_ip a = Some ip
       /\ routable ip)
    /\ hostname (updateIPs z (Some ifs)) = hostname z
    /\ updateIPs z None = z.
Proof.
  intros z ifs ip. split; [|split; reflexivity].
  rewrite updateIPs_flat_map, in_flat_map. split.
  - intros (iface & Hin & Hk). unfold kept_ips in Hk.
    destruct (Z.eqb_spec (Z.land (Flags iface) FlagUp) 0) as [|Hup]; [contradiction|].
    destruct (Z.eqb_spec (Z.land (Flags iface) FlagLoopback) 0) as [Hlo|]; [|contradiction].
    cbn [negb orb] in Hk.
    destruct (Addrs iface) as [addrs|] eqn:Ea; [|contradiction].
    apply in_flat_map in Hk. destruct Hk as (a & Ha & Hk).
    unfold kept_ip in Hk.
    destruct (addr_ip a) as [ip'|] eqn:Eip; [|contradiction].
    destruct (IsLoopback ip') eqn:E1; [contradiction|].
    destruct (IsLinkLocalUnicast ip') eqn:E2; [contradiction|].
    cbn [orb] in Hk. destruct Hk as [->|[]].
    exists iface, addrs, a. repeat split; assumption.
  - intros (iface & addrs & a & Hin & Hup & Hlo & Ea & Ha & Eip & E1 & E2).
    exists iface. split; [exact Hin|]. unfold kept_ips.
    destruct (Z.eqb_spec (Z.land (Flags iface) FlagUp) 0) as [|_]; [contradiction|].
    rewrite Hlo. cbn [Z.eqb negb orb]. rewrite Ea.
    apply in_flat_map. exists a. split; [exact Ha|].
    unfold kept_ip. rewrite Eip, E1, E2. left. reflexivity.
Qed.

Section WithToLower.

Variable ToLower : string -> string.

(** X10. For a zone built by [NewMatterZone] and refreshed any number of
    times, every known address is advertised under exactly one of the two
    types: the A answers and the AAAA answers for the hostname together
    are as many as the known addresses. *)
Theorem Records_partition :
  forall (cfg : string) (env0 : option (list Interface))
         (envs : list (option (list Interface))) (name : string) (c1 c2 : Z),
    let z := fold_left UpdateIPs envs (NewMatterZone cfg env0) in
    ToLower name = ToLower (hostname z) ->
    (List.length (Records ToLower z (mkQ name DNS.dnsTypeA c1))
     + List.length (Records ToLower z (mkQ name DNS.dnsTypeAAAA c2)))%nat
    = List.length (ips z).
Proof.
  intros cfg env0 envs name c1 c2 z Hn.
  destruct (refreshed_zone cfg env0 envs) as [_ Hr]. fold z in Hr.
  unfold Records. cbn [Name Type_]. rewrite Hn, String.eqb_refl. cbn [negb].
  change (DNS.dnsTypeA =? DNS.dnsTypeA) with true.
  change (DNS.dnsTypeAAAA =? DNS.dnsTypeA) with false.
  change (DNS.dnsTypeAAAA =? DNS.dnsTypeAAAA) with true. cbv iota.
  rewrite fold_A, fold_AAAA. cbn [app]. rewrite !length_map.
  destruct (filter_routable (fun ip => negb (isIPv4 ip)) (ips z) Hr) as [_ ->].
  clear. induction (ips z) as [|ip l IH]; [reflexivity|].
  cbn [List.filter]. destruct (isIPv4 ip); cbn [negb List.length]; lia.
Qed.

End WithToLower.

Lemma Records_partition_witness :
  let z := NewMatterZone "test" sample_interfaces in
  (List.length (Records ToLowerASCII z (mkQ "TEST.local" DNS.dnsTypeA 1))
   + List.length (Records ToLowerASCII z (mkQ "TEST.local" DNS.dnsTypeAAAA 1)))%nat
  = List.length (ips z).
Proof.
  apply (Records_partition ToLowerASCII "test" sample_interfaces [] "TEST.local" 1 1).
  reflexivity.
Defined.

End ZoneMore.

(** ** More on the session registry and the event bus *)

Module WSMore.
Import WS WSSamples WSShutdown WSShapes WSFacts.

(** Under the write lock a [close] of a live session blocks, the registry
    and its lock as they were. *)
Lemma close_under_write_lock (p : nat) (w : World) :
  writer (connectionsMu w) = true ->
  live_in w p ->
  exists w', close p w = Blocked w'
             /\ connections w' = connections w
             /\ connectionsMu w' = connectionsMu w.
Proof.
  intros Hw (c & Hc & Hd).
  destruct w as [h cs [r wr] ecs emu sp tr]. cbn in Hw, Hc. subst wr.
  unfold close. cbn [heap]. rewrite Hc, Hd.
  destruct (c_unsubscribe c) as [id|].
  - unfold unsubscribe. cbn [eventMu emit].
    destruct (Lock emu).
    + cbn. unfold Lock. cbn. rewrite andb_false_r. eexists. repeat split.
    + eexists. repeat split.
  - cbn. unfold Lock. cbn. rewrite andb_false_r. eexists. repeat split.
Qed.

Lemma shutdown_loop_spec (ps : list nat) (w : World) :
  writer (connectionsMu w) = true ->
  Forall (in_heap w) ps ->
  (Forall (done_in w) ps -> shutdown_loop ps w = Done tt w)
  /\ (Exists (live_in w) ps ->
      exists w', shutdown_loop ps w = Blocked w'
                 /\ connections w' = connections w
                 /\ connectionsMu w' = connectionsMu w).
Proof.
  intros Hw. induction ps as [|p ps IH]; intros Hin.
  - split; [reflexivity|]. intros H. inversion H.
  - inversion Hin as [|? ? (c & Hc) Hin']; subst.
    destruct (IH Hin') as [IHd IHl].
    cbn [shutdown_loop].
    destruct (c_done c) eqn:Hd.
    + rewrite (close_closed w p c Hc Hd). split.
      * intros H. inversion H; subst. auto.
      * intros H. inversion H as [? ? (c' & Hc' & Hd')|]; subst; [congruence|auto].
    + destruct (close_under_write_lock p w Hw) as (w' & E & H1 & H2);
        [exists c; split; assumption|].
      rewrite E. split.
      * intros H. inversion H as [|? ? (c' & Hc' & Hd') ?]; subst. congruence.
      * intros _. exists w'. repeat split; assumption.
Qed.

(** X11. [Shutdown] with the registry lock free: when every registered session
    is already cancelled (or none is registered) it returns with an empty
    registry and nothing else changed; when a registered session is live
    it never returns, because [close] asks for the write lock that
    [Shutdown] holds: no session is removed and the lock stays taken. *)
Theorem Shutdown_spec :
  forall w : World,
    connectionsMu w = mkMu 0 false ->
    Forall (in_heap w) (map snd (map_to_list (connections w))) ->
    (Forall (done_in w) (map snd (map_to_list (connections w))) ->
     Shutdown w = Done tt (set_connections ∅ w))
    /\ (Exists (live_in w) (map snd (map_to_list (connections w))) ->
        exists w', Shutdown w = Blocked w'
                   /\ connections w' = connections w
                   /\ connectionsMu w' = mkMu 0 true).
Proof.
  intros w Hmu Hin. unfold Shutdown. rewrite Hmu. cbn [Lock readers writer Nat.eqb negb andb].
  destruct (shutdown_loop_spec (map snd (map_to_list (connections w)))
              (set_connectionsMu (mkMu 0 true) w)) as [Hd Hl].
  - reflexivity.
  - exact Hin.
  - split.
    + intros H. rewrite (Hd H). destruct w; cbn in *. subst. reflexivity.
    + intros H. destruct (Hl H) as (w' & E & H1 & H2). exists w'.
      cbn [set_connectionsMu connections] in E. rewrite E.
      repeat split; assumption.
Qed.

Lemma Shutdown_spec_witness :
  Shutdown NewHandler = Done tt NewHandler
  /\ exists w', Shutdown one_session = Blocked w'
                /\ connections w' = connections one_session
                /\ connectionsMu w' = mkMu 0 true.
Proof.
  split.
  - destruct (Shutdown_spec NewHandler) as [H _].
    + reflexivity.
    + vm_compute. constructor.
    + apply H. vm_compute. constructor.
  - destruct (Shutdown_spec one_session) as [_ H].
    + reflexivity.
    + vm_compute. repeat constructor. eexists. vm_compute. reflexivity.
    + apply H. vm_compute. apply Exists_cons_hd. eexists. split; vm_compute; reflexivity.
Defined.

Lemma remove_sub_fresh (id : string) (l : list eventSubscription) :
  fresh_sub id l -> remove_sub id l = l.
Proof.
  induction 1 as [|s l Hs _ IH]; [reflexivity|].
  cbn [remove_sub]. destruct (String.eqb_spec (sub_id s) id); [contradiction|].
  rewrite IH. reflexivity.
Qed.

Lemma remove_sub_app_fresh (id : string) (cb : nat) (l : list eventSubscription) :
  fresh_sub id l -> remove_sub id (l ++ [mkSub id cb]) = l.
Proof.
  induction 1 as [|s l Hs _ IH]; cbn [app remove_sub sub_id].
  - rewrite String.eqb_refl. reflexivity.
  - destruct (String.eqb_spec (sub_id s) id); [contradiction|].
    rewrite IH. reflexivity.
Qed.

(** X12. Subscribing under an identifier no subscription carries and calling
    the returned closure brings the subscriber list back to what it was;
    a second call of the closure changes nothing. *)
Theorem Subscribe_unsubscribe :
  forall (w : World) (id : string) (cb : nat),
    eventMu w = mkMu 0 false ->
    fresh_sub id (eventCallbacks w) ->
    exists w1 w2 w3,
      Subscribe id cb w = Done id w1
      /\ eventCallbacks w1 = eventCallbacks w ++ [mkSub id cb]
      /\ unsubscribe id w1 = Done tt w2
      /\ eventCallbacks w2 = eventCallbacks w
      /\ unsubscribe id w2 = Done tt w3
      /\ eventCallbacks w3 = eventCallbacks w
      /\ eventMu w3 = mkMu 0 false.
Proof.
  intros w id cb Hmu Hf.
  destruct w as [h cs cmu ecs emu sp tr]. cbn in Hmu, Hf. subst emu.
  eexists _, _, _.
  split; [reflexivity|]. split; [reflexivity|].
  split; [reflexivity|]. cbn. rewrite (remove_sub_app_fresh id cb ecs Hf).
  split; [reflexivity|]. split; [reflexivity|].
  rewrite (remove_sub_fresh id ecs Hf). split; reflexivity.
Qed.

Lemma Subscribe_unsubscribe_witness :
  exists w1 w2 w3,
    Subscribe "sub-2" 1 one_session = Done "sub-2"%string w1
    /\ eventCallbacks w1 = eventCallbacks one_session ++ [mkSub "sub-2" 1]
    /\ unsubscribe "sub-2" w1 = Done tt w2
    /\ eventCallbacks w2 = eventCallbacks one_session
    /\ unsubscribe "sub-2" w2 = Done tt w3
    /\ eventCallbacks w3 = eventCallbacks one_session
    /\ eventMu w3 = mkMu 0 false.
Proof.
  apply (Subscribe_unsubscribe one_session "sub-2" 1).
  - reflexivity.
  - vm_compute. repeat constructor. discriminate.
Defined.

Lemma remove_sub_filter (id : string) (l : list eventSubscription) :
  NoDup (map sub_id l) ->
  remove_sub id l = List.filter (fun s => negb (String.eqb (sub_id s) id)) l.
Proof.
  induction l as [|s l IH]; intros Hnd; [reflexivity|].
  cbn [map] in Hnd. inversion Hnd as [|? ? Hnotin Hnd']; subst.
  cbn [remove_sub List.filter].
  destruct (String.eqb_spec (sub_id s) id) as [He|Hne]; cbn [negb].
  - subst id. symmetry.
    assert (Hall : Forall (fun s' => negb (String.eqb (sub_id s') (sub_id s)) = true) l).
    { apply List.Forall_forall. intros s' Hin.
      destruct (String.eqb_spec (sub_id s') (sub_id s)) as [E|]; [|reflexivity].
      exfalso. apply Hnotin. rewrite <- E. apply list_elem_of_In, in_map. exact Hin. }
    clear -Hall. induction Hall as [|s' l Hs' _ IH]; [reflexivity|].
    cbn [List.filter]. rewrite Hs', IH. reflexivity.
  - rewrite IH by assumption. reflexivity.
Qed.

(** X13. With pairwise different subscription identifiers, the closure for
    [id] removes the entries with that identifier and no other, keeps the
    order of the rest, and is a no-op when called again. *)
Theorem unsubscribe_exact :
  forall (w : World) (id : string),
    eventMu w = mkMu 0 false ->
    NoDup (map sub_id (eventCallbacks w)) ->
    exists w1 w2,
      unsubscribe id w = Done tt w1
      /\ eventCallbacks w1
         = List.filter (fun s => negb (String.eqb (sub_id s) id)) (eventCallbacks w)
      /\ connections w1 = connections w
      /\ heap w1 = heap w
      /\ unsubscribe id w1 = Done tt w2
      /\ eventCallbacks w2 = eventCallbacks w1.
Proof.
  intros w id Hmu Hnd.
  destruct w as [h cs cmu ecs emu sp tr]. cbn in Hmu, Hnd. subst emu.
  eexists _, _.
  split; [reflexivity|]. cbn.
  split; [apply remove_sub_filter, Hnd|].
  split; [reflexivity|]. split; [reflexivity|].
  split; [reflexivity|].
  rewrite (remove_sub_filter id ecs Hnd).
  apply remove_sub_fresh.
  apply List.Forall_forall. intros s Hin. apply filter_In in Hin.
  destruct Hin as [_ Hs]. destruct (String.eqb_spec (sub_id s) id); [discriminate|assumption].
Qed.

Lemma unsubscribe_exact_witness :
  exists w1 w2,
    unsubscribe "sub-1" one_session = Done tt w1
    /\ eventCallbacks w1
       = List.filter (fun s => negb (String.eqb (sub_id s) "sub-1"))
                     (eventCallbacks one_session)
    /\ connections w1 = connections one_session
    /\ heap w1 = heap one_session
    /\ unsubscribe "sub-1" w1 = Done tt w2
    /\ eventCallbacks w2 = eventCallbacks w1.
Proof.
  apply (unsubscribe_exact one_session "sub-1").
  - reflexivity.
  - vm_compute. repeat constructor. intros H. inversion H.
Defined.












End WSMore.

(** ** More on the commands *)

Module ServerMore.
Import Server ServerSamples ServerMoreSamples ServerLoad ServerShapes ServerFacts.
Local Open Scope Z_scope.

Lemma allocates_only_refl (st : State) : allocates_only st st.
Proof. repeat split; reflexivity. Qed.

(** A reader sees the same registry after records were added to the
    store. *)
Lemma registry_view_allocates (st st' : State) :
  wf_state st -> allocates_only st st' -> registry_view st' = registry_view st.
Proof.
  intros Hwf (Hn & _ & Hm & _ & _ & Ho).
  unfold registry_view. rewrite Hn, Hm. apply map_eq. intros i.
  rewrite !lookup_omap.
  destruct (nodes st !! i) as [p|] eqn:Ei; [|reflexivity]. cbn.
  destruct (Hwf i p Ei) as [node Hp].
  rewrite (lookup_weaken _ _ _ _ Hp Ho), Hp. reflexivity.
Qed.

Lemma wf_state_allocates (st st' : State) :
  wf_state st -> allocates_only st st' -> wf_state st'.
Proof.
  intros Hwf (Hn & _ & _ & _ & _ & Ho) i p Hi. rewrite Hn in Hi.
  destruct (Hwf i p Hi) as [node Hp]. exists node.
  exact (lookup_weaken _ _ _ _ Hp Ho).
Qed.

Lemma keyed_allocates (st st' : State) :
  keyed st -> allocates_only st st' -> keyed st'.
Proof.
  intros Hk (Hn & _ & _ & _ & _ & Ho) i p Hi. rewrite Hn in Hi.
  destruct (Hk i p Hi) as (node & Hp & Hid). exists node. split; [|exact Hid].
  exact (lookup_weaken _ _ _ _ Hp Ho).
Qed.

Lemma keyed_wf (st : State) : keyed st -> wf_state st.
Proof. intros Hk i p Hi. destruct (Hk i p Hi) as (node & Hp & _). eauto. Qed.

Lemma copy_node_allocates (node : MatterNodeData) (st : State) :
  allocates_only st (copy_node node st).2
  /\ nodeObjs st !! (copy_node node st).1 = None
  /\ nodeObjs (copy_node node st).2 !! (copy_node node st).1 = Some node.
Proof.
  unfold copy_node. cbn.
  assert (Hq : nodeObjs st !! fresh (dom (nodeObjs st)) = None).
  { apply not_elem_of_dom, is_fresh. }
  split; [|split].
  - repeat split; try reflexivity. cbn. apply insert_subseteq, Hq.
  - exact Hq.
  - apply lookup_insert_eq.
Qed.

Lemma allocates_only_trans (st1 st2 st3 : State) :
  allocates_only st1 st2 -> allocates_only st2 st3 -> allocates_only st1 st3.
Proof.
  intros (A1 & A2 & A3 & A4 & A5 & A6) (B1 & B2 & B3 & B4 & B5 & B6).
  repeat split; try congruence. etransitivity; eassumption.
Qed.

Lemma Forall2_impl_elem {A B : Type} (P Q : A -> B -> Prop)
    (l : list A) (k : list B) :
  Forall2 P l k -> (forall x y, y ∈ k -> P x y -> Q x y) -> Forall2 Q l k.
Proof.
  induction 1 as [|x y l k Hxy Hlk IH]; intros HPQ; constructor.
  - apply HPQ; [left|exact Hxy].
  - apply IH. intros x' y' Hy'. apply HPQ. right. exact Hy'.
Qed.

(** The loop of [handleGetNodes]: a new record for each pointer, each
    holding what the pointer's record holds. *)
Lemma copy_nodes_spec (ps : list nat) :
  forall (acc : list nat) (st : State),
    (forall p, p ∈ ps -> is_Some (nodeObjs st !! p)) ->
    exists qs st',
      copy_nodes ps acc st = Ok (acc ++ qs, st')
      /\ allocates_only st st'
      /\ List.NoDup qs
      /\ (forall q, q ∈ qs -> nodeObjs st !! q = None)
      /\ Forall2 (fun q p => exists node, nodeObjs st' !! q = Some node
                                          /\ nodeObjs st !! p = Some node) qs ps.
Proof.
  induction ps as [|p ps IH]; intros acc st Hps.
  - exists [], st. rewrite app_nil_r.
    repeat split; try reflexivity; try constructor.
    intros q Hq. inversion Hq.
  - destruct (Hps p) as [node Hp]; [left|].
    cbn [copy_nodes]. rewrite Hp.
    destruct (copy_node_allocates node st) as (Ha & Hfresh & Hnew).
    destruct (copy_node node st) as [q st1] eqn:Ec. cbn [fst snd] in Ha, Hfresh, Hnew.
    destruct (IH (acc ++ [q]) st1) as (qs & st' & Hrun & Ha' & Hnd & Hfr & Hall).
    { intros p' Hp'. destruct (Hps p') as [n' Hn']; [right; exact Hp'|].
      exists n'. destruct Ha as (_ & _ & _ & _ & _ & Ho).
      exact (lookup_weaken _ _ _ _ Hn' Ho). }
    destruct Ha as (A1 & A2 & A3 & A4 & A5 & A6).
    pose proof Ha' as (B1 & B2 & B3 & B4 & B5 & B6).
    exists (q :: qs), st'. rewrite Hrun, <- app_assoc.
    split; [reflexivity|].
    split; [apply (allocates_only_trans st st1 st'); repeat split; assumption|].
    split.
    { constructor; [|exact Hnd]. intros Hin. apply list_elem_of_In in Hin.
      apply Hfr in Hin. congruence. }
    split.
    { intros q' Hq'. apply elem_of_cons in Hq' as [->|Hq']; [exact Hfresh|].
      apply Hfr in Hq'. exact (lookup_weaken_None _ _ _ Hq' A6). }
    constructor.
    + exists node. split; [exact (lookup_weaken _ _ _ _ Hnew B6)|exact Hp].
    + eapply Forall2_impl_elem; [exact Hall|]. cbn.
      intros q' p' Hin (n' & Hq' & Hp'). exists n'. split; [exact Hq'|].
      destruct (Hps p') as [n'' E]; [right; exact Hin|].
      rewrite (lookup_weaken _ _ _ _ E A6) in Hp'. congruence.
Qed.

Lemma node_ptrs_elem (st : State) (p : nat) :
  p ∈ node_ptrs st <-> exists i, nodes st !! i = Some p.
Proof.
  unfold node_ptrs. rewrite list_elem_of_fmap. split.
  - intros ([i q] & -> & Hin). exists i. apply elem_of_map_to_list in Hin. exact Hin.
  - intros (i & Hi). exists (i, p). split; [reflexivity|].
    apply elem_of_map_to_list. exact Hi.
Qed.

Lemma node_ptrs_length (st : State) : length (node_ptrs st) = size (nodes st).
Proof. unfold node_ptrs. rewrite length_map. apply length_map_to_list. Qed.

Lemma getNodes_spec (st : State) :
  wf_state st ->
  exists qs st',
    getNodes st = Ok (qs, st')
    /\ allocates_only st st'
    /\ List.NoDup qs
    /\ (forall q, q ∈ qs -> nodeObjs st !! q = None)
    /\ Forall2 (fun q p => exists node, nodeObjs st' !! q = Some node
                                        /\ nodeObjs st !! p = Some node)
               qs (node_ptrs st).
Proof.
  intros Hwf. unfold getNodes.
  destruct (copy_nodes_spec (node_ptrs st) [] st) as (qs & st' & Hrun & H).
  { intros p Hp. apply node_ptrs_elem in Hp as (i & Hi). exact (Hwf i p Hi). }
  exists qs, st'. split; [exact Hrun|exact H].
Qed.

(** X17. get_nodes on a registry whose pointers all point to records
    returns one new record for each registered node, in the order of the
    registry: the records are pairwise distinct objects, none of them was
    in the store before, each holds what the registered record holds, and
    the registry is as it was. *)
Theorem handleGetNodes_fresh_copies :
  forall st : State,
    wf_state st ->
    exists (qs : list nat) (st' : State),
      handleGetNodes st = Ok (RNodes qs, st')
      /\ length qs = size (nodes st)
      /\ List.NoDup qs
      /\ (forall q, q ∈ qs -> nodeObjs st !! q = None)
      /\ Forall2 (fun q p => exists node, nodeObjs st' !! q = Some node
                                          /\ nodeObjs st !! p = Some node)
                 qs (node_ptrs st)
      /\ allocates_only st st'
      /\ registry_view st' = registry_view st.
Proof.
  intros st Hwf.
  destruct (getNodes_spec st Hwf) as (qs & st' & Hrun & Ha & Hnd & Hfr & Hall).
  exists qs, st'. unfold handleGetNodes. rewrite Hrun.
  split; [reflexivity|].
  split; [rewrite (Forall2_length _ _ _ Hall); apply node_ptrs_length|].
  repeat (split; [assumption|]).
  apply registry_view_allocates; assumption.
Qed.

Lemma deref_nodes_spec (st st' : State) (qs ps : list nat) :
  Forall2 (fun q p => exists node, nodeObjs st' !! q = Some node
                                   /\ nodeObjs st !! p = Some node) qs ps ->
  exists l, deref_nodes qs st' = Ok l
            /\ Forall2 (fun node p => nodeObjs st !! p = Some node) l ps.
Proof.
  induction 1 as [|q p qs ps (node & Hq & Hp) _ (l & Hl & IH)].
  - exists []. split; [reflexivity|constructor].
  - exists (node :: l). cbn [deref_nodes]. rewrite Hq, Hl.
    split; [reflexivity|constructor; assumption].
Qed.

(** X18. diagnostics on a registry whose pointers all point to records
    returns the server info, no events, and the registered records
    themselves, one for each registered node and no other; the registry is
    as it was. *)
Theorem handleServerDiagnostics_spec :
  forall st : State,
    wf_state st ->
    exists (l : list MatterNodeData) (st' : State),
      handleServerDiagnostics st = Ok (RDiagnostics (serverInfo st) l [], st')
      /\ Forall2 (fun node p => nodeObjs st !! p = Some node) l (node_ptrs st)
      /\ length l = size (nodes st)
      /\ (forall node, node ∈ l <->
            exists i p, nodes st !! i = Some p /\ nodeObjs st !! p = Some node)
      /\ allocates_only st st'
      /\ registry_view st' = registry_view st.
Proof.
  intros st Hwf.
  destruct (getNodes_spec st Hwf) as (qs & st' & Hrun & Ha & Hnd & Hfr & Hall).
  destruct (deref_nodes_spec st st' qs (node_ptrs st) Hall) as (l & Hl & Hlp).
  exists l, st'. unfold handleServerDiagnostics. rewrite Hrun, Hl.
  destruct Ha as (A1 & A2 & A3 & A4 & A5 & A6).
  split; [rewrite A2; reflexivity|].
  split; [exact Hlp|].
  split; [rewrite (Forall2_length _ _ _ Hlp); apply node_ptrs_length|].
  split.
  { intros node. split.
    - intros Hin. apply list_elem_of_lookup in Hin as (k & Hk).
      destruct (Forall2_lookup_l _ _ _ _ _ Hlp Hk) as (p & Hp & Hnode).
      apply list_elem_of_lookup_2, node_ptrs_elem in Hp as (i & Hi). eauto.
    - intros (i & p & Hi & Hp).
      assert (Hin : p ∈ node_ptrs st) by (apply node_ptrs_elem; eauto).
      apply list_elem_of_lookup in Hin as (k & Hk).
      destruct (Forall2_lookup_r _ _ _ _ _ Hlp Hk) as (n' & Hn' & Hnode).
      apply list_elem_of_lookup_2 in Hn'. congruence. }
  split; [repeat split; assumption|].
  apply registry_view_allocates; [exact Hwf|repeat split; assumption].
Qed.

(** *** loadNodes *)

Lemma stored_ids_cons (objs : gmap nat MatterNodeData) (p : nat)
    (node : MatterNodeData) (ptrs : list (option nat)) :
  objs !! p = Some node ->
  stored_ids objs (Some p :: ptrs) = NodeID node :: stored_ids objs ptrs.
Proof. intros Hp. unfold stored_ids. cbn. rewrite Hp. reflexivity. Qed.

Lemma load_loop_spec (ptrs : list (option nat)) :
  forall st : State,
    stored_ok (nodeObjs st) ptrs ->
    exists st',
      load_loop ptrs st = Ok st'
      /\ nodeObjs st' = nodeObjs st
      /\ serverInfo st' = serverInfo st
      /\ mapObjs st' = mapObjs st
      /\ (keyed st -> keyed st')
      /\ (forall i, i ∉ stored_ids (nodeObjs st) ptrs ->
            nodes st' !! i = nodes st !! i)
      /\ (forall i, i ∈ stored_ids (nodeObjs st) ptrs ->
            exists p node, nodes st' !! i = Some p /\ Some p ∈ ptrs
                           /\ nodeObjs st !! p = Some node /\ NodeID node = i)
      /\ (forall l1 p l2 node,
            ptrs = l1 ++ Some p :: l2 ->
            nodeObjs st !! p = Some node ->
            NodeID node ∉ stored_ids (nodeObjs st) l2 ->
            nodes st' !! NodeID node = Some p).
Proof.
  induction ptrs as [|o ptrs IH]; intros st Hok.
  - exists st. repeat split; try reflexivity; try tauto.
    + intros i Hi. inversion Hi.
    + intros [|? ?] p l2 node H; discriminate H.
  - apply Forall_cons in Hok as [(p & -> & node & Hp) Hok].
    cbn [load_loop]. rewrite Hp.
    set (st1 := mkState (<[NodeID node := p]> (nodes st)) (serverInfo st)
                        (nodeObjs st) (mapObjs st) (subArrays st) (intObjs st)).
    destruct (IH st1 Hok) as (st' & Hrun & Ho & Hi & Hm & Hk & Hout & Hin & Hlast).
    change (nodeObjs st1) with (nodeObjs st) in *.
    exists st'. rewrite (stored_ids_cons _ _ _ _ Hp).
    split; [exact Hrun|]. split; [exact Ho|]. split; [exact Hi|]. split; [exact Hm|].
    split.
    { intros Hkeyed. apply Hk. intros i q Hq. cbn [nodes st1] in Hq.
      change (nodeObjs st1) with (nodeObjs st).
      apply lookup_insert_Some in Hq as [[<- <-]|[_ Hq]]; [eauto|].
      exact (Hkeyed i q Hq). }
    split.
    { intros i Hni. apply not_elem_of_cons in Hni as [Hne Hni].
      rewrite (Hout i Hni). cbn [nodes st1].
      apply lookup_insert_ne. congruence. }
    split.
    { intros i Hi'.
      destruct (decide (i ∈ stored_ids (nodeObjs st) ptrs)) as [Hyes|Hno].
      - destruct (Hin i Hyes) as (q & n & H1 & H2 & H3 & H4).
        exists q, n. repeat split; try assumption. right. exact H2.
      - apply elem_of_cons in Hi' as [->|Hi']; [|contradiction].
        exists p, node. rewrite (Hout _ Hno). cbn [nodes st1].
        rewrite lookup_insert_eq. repeat split; [left|exact Hp]. }
    intros l1 q l2 n Heq Hq Hn. destruct l1 as [|x l1].
    + cbn in Heq. injection Heq as <- <-.
      assert (n = node) as -> by congruence.
      rewrite (Hout _ Hn). cbn [nodes st1]. apply lookup_insert_eq.
    + cbn in Heq. injection Heq as _ ->. exact (Hlast l1 q l2 n eq_refl Hq Hn).
Qed.

(** X16. [loadNodes] on a new server, when every pointer the storage
    returned points to a record: it returns without error, the store is
    untouched, and the registry holds exactly the identifiers of the
    stored records, each key pointing to a stored record with that
    identifier; of two stored records with one identifier the later one is
    registered. *)
Theorem loadNodes_spec :
  forall (info : ServerInfoMessage) (objs : gmap nat MatterNodeData)
         (maps : gmap nat (gmap string value)) (ptrs : list (option nat)),
    stored_ok objs ptrs ->
    exists st' : State,
      loadNodes (Some ptrs) (fresh_server info objs maps) = Ok st'
      /\ nodeObjs st' = objs /\ mapObjs st' = maps /\ serverInfo st' = info
      /\ keyed st'
      /\ wf_state st'
      /\ (forall i, is_Some (nodes st' !! i) <-> i ∈ stored_ids objs ptrs)
      /\ (forall i p, nodes st' !! i = Some p -> Some p ∈ ptrs)
      /\ (forall l1 p l2 node,
            ptrs = l1 ++ Some p :: l2 ->
            objs !! p = Some node ->
            NodeID node ∉ stored_ids objs l2 ->
            nodes st' !! NodeID node = Some p).
Proof.
  intros info objs maps ptrs Hok.
  destruct (load_loop_spec ptrs (fresh_server info objs maps) Hok)
    as (st' & Hrun & Ho & Hi & Hm & Hk & Hout & Hin & Hlast).
  cbn [fresh_server nodeObjs serverInfo mapObjs nodes] in *.
  assert (Hkeyed : keyed st').
  { apply Hk. intros i p H. cbn [fresh_server nodes] in H.
    rewrite lookup_empty in H. discriminate H. }
  assert (Hdom : forall i, is_Some (nodes st' !! i) <-> i ∈ stored_ids objs ptrs).
  { intros i. split.
    - intros [p Hp]. destruct (decide (i ∈ stored_ids objs ptrs)) as [Hy|Hn]; [exact Hy|].
      rewrite (Hout i Hn), lookup_empty in Hp. discriminate Hp.
    - intros Hy. destruct (Hin i Hy) as (p & _ & Hp & _). eauto. }
  exists st'. repeat (split; [first [assumption|apply keyed_wf; assumption]|]).
  split.
  { intros i p Hp. assert (Hy : i ∈ stored_ids objs ptrs) by (apply Hdom; eauto).
    destruct (Hin i Hy) as (q & _ & Hq & Hmem & _). congruence. }
  exact Hlast.
Qed.

Section WithFloatConversion.

Variable int_of_unrepresentable : spec_float -> Z.

Abbreviation parseNodeID' := (parseNodeID int_of_unrepresentable).
Abbreviation handleGetNode' := (handleGetNode int_of_unrepresentable).
Abbreviation handlePingNode' := (handlePingNode int_of_unrepresentable).
Abbreviation HandleCommand' := (HandleCommand int_of_unrepresentable).

Lemma handleGetNode_spec (args : gmap string value) (st : State) :
  wf_state st ->
  (exists e, handleGetNode' args st = Err e
             /\ (parseNodeID' args = Err e
                 \/ exists i, parseNodeID' args = Ok i /\ nodes st !! i = None
                              /\ e = ErrNodeNotFound i))
  \/ (exists i p node st',
        parseNodeID' args = Ok i /\ nodes st !! i = Some p
        /\ nodeObjs st !! p = Some node
        /\ handleGetNode' args st = Ok (RNode (fresh (dom (nodeObjs st))), st')
        /\ allocates_only st st'
        /\ nodeObjs st' !! fresh (dom (nodeObjs st)) = Some node
        /\ nodeObjs st !! fresh (dom (nodeObjs st)) = None).
Proof.
  intros Hwf. unfold Server.handleGetNode.
  destruct (parseNodeID_total int_of_unrepresentable args) as [[i Hi]|[e He]].
  - rewrite Hi. destruct (nodes st !! i) as [p|] eqn:En.
    + destruct (Hwf i p En) as [node Hp]. rewrite Hp.
      destruct (copy_node_allocates node st) as (Ha & Hfresh & Hnew).
      right. exists i, p, node, (copy_node node st).2.
      repeat (split; [first [reflexivity|assumption]|]). exact Hfresh.
    + left. exists (ErrNodeNotFound i). split; [reflexivity|]. right. eauto.
  - rewrite He. left. exists e. split; [reflexivity|]. left. reflexivity.
Qed.

(** X19. get_node on a registry where every key is the identifier of
    the record it points to, with an identifier that parses: without an
    entry for it the not-found error; with one, a new record, not in the
    store before, that holds what the registered record holds and carries
    the identifier that was asked for; the registry is as it was. *)
Theorem get_node_returns_requested :
  forall (args : gmap string value) (st : State) (i : Z),
    keyed st ->
    parseNodeID' args = Ok i ->
    (nodes st !! i = None /\ handleGetNode' args st = Err (ErrNodeNotFound i))
    \/ (exists (p q : nat) (node : MatterNodeData) (st' : State),
          nodes st !! i = Some p
          /\ nodeObjs st !! p = Some node
          /\ handleGetNode' args st = Ok (RNode q, st')
          /\ nodeObjs st !! q = None
          /\ nodeObjs st' !! q = Some node
          /\ NodeID node = i
          /\ registry_view st' = registry_view st
          /\ keyed st').
Proof.
  intros args st i Hk Hi.
  pose proof (keyed_wf st Hk) as Hwf.
  destruct (handleGetNode_spec args st Hwf)
    as [(e & He & [Hp|(j & Hj & Hn & ->)])
       |(j & p & node & st' & Hj & Hn & Hp & Hr & Ha & Hnew & Hfresh)].
  - congruence.
  - assert (j = i) as -> by congruence. left. split; assumption.
  - assert (j = i) as -> by congruence. right.
    exists p, (fresh (dom (nodeObjs st))), node, st'.
    destruct (Hk i p Hn) as (node' & Hp' & Hid).
    assert (node' = node) as -> by congruence.
    repeat (split; [assumption|]).
    split; [apply registry_view_allocates; assumption|].
    eapply keyed_allocates; eassumption.
Qed.

(** X20. A command never changes the registry. On a registry whose
    pointers all point to records, [HandleCommand] returns a result or an
    error, whatever the command and its arguments; with a result, the
    server differs at most by new records in the store: the [nodes] map,
    the server info, the attribute maps and every record that was there
    are the same, so a reader sees the same registry, and the registry
    still has a record behind every pointer. *)
Theorem HandleCommand_read_only :
  forall (cmd : CommandMessage) (st : State),
    wf_state st ->
    ((exists r st', HandleCommand' cmd st = Ok (r, st'))
     \/ (exists e, HandleCommand' cmd st = Err e))
    /\ (forall r st', HandleCommand' cmd st = Ok (r, st') ->
          allocates_only st st'
          /\ registry_view st' = registry_view st
          /\ wf_state st'
          /\ (keyed st -> keyed st')).
Proof.
  intros cmd st Hwf.
  assert (Hok : forall st', allocates_only st st' ->
            allocates_only st st' /\ registry_view st' = registry_view st
            /\ wf_state st' /\ (keyed st -> keyed st')).
  { intros st' Ha. split; [exact Ha|].
    split; [apply registry_view_allocates; assumption|].
    split; [eapply wf_state_allocates; eassumption|].
    intros Hk. eapply keyed_allocates; eassumption. }
  destruct (handleGetNodes_fresh_copies st Hwf) as (qs & st1 & Hg & _ & _ & _ & _ & Hga & _).
  destruct (handleServerDiagnostics_spec st Hwf) as (l & st2 & Hd & _ & _ & _ & Hda & _).
  unfold Server.HandleCommand, handleStartListening, handleServerInfo.
  repeat match goal with
         | |- context [String.eqb ?a ?b] => destruct (String.eqb a b)
         end.
  - split; [left; eauto|]. intros r st' H. injection H as <- <-.
    apply Hok, allocates_only_refl.
  - rewrite Hg. split; [left; eauto|]. intros r st' H. injection H as <- <-.
    apply Hok, Hga.
  - destruct (handleGetNode_spec (Args cmd) st Hwf)
      as [(e & He & _)|(i & p & node & st' & _ & _ & _ & Hr & Ha & _)].
    + rewrite He. split; [right; eauto|]. intros r st' H. discriminate H.
    + rewrite Hr. split; [left; eauto|]. intros r st'' H. injection H as <- <-.
      apply Hok, Ha.
  - rewrite Hd. split; [left; eauto|]. intros r st' H. injection H as <- <-.
    apply Hok, Hda.
  - rewrite Hg. split; [left; eauto|]. intros r st' H. injection H as <- <-.
    apply Hok, Hga.
  - unfold Server.handlePingNode.
    destruct (parseNodeID_total int_of_unrepresentable (Args cmd)) as [[i Hi]|[e He]].
    + rewrite Hi. destruct (nodes st !! i).
      * split; [left; eauto|]. intros r st' H. injection H as <- <-.
        apply Hok, allocates_only_refl.
      * split; [right; eauto|]. intros r st' H. discriminate H.
    + rewrite He. split; [right; eauto|]. intros r st' H. discriminate H.
  - split; [right; eauto|]. intros r st' H. discriminate H.
Qed.

(** X21. The commands [HandleCommand] knows are server_info, get_nodes,
    get_node, diagnostics, start_listening and ping_node: it answers with
    the unknown-command error, naming the command, exactly when the
    command is none of these, and an unknown-command error never names
    another command. *)
Theorem HandleCommand_unknown_command :
  forall (cmd : CommandMessage) (st : State),
    (HandleCommand' cmd st = Err (ErrUnknownCommand (Command cmd))
     <-> ~ In (Command cmd) known_commands)
    /\ (forall c, HandleCommand' cmd st = Err (ErrUnknownCommand c) ->
          c = Command cmd /\ ~ In (Command cmd) known_commands).
Proof.
  intros cmd st.
  assert (Hget : forall c, handleGetNode' (Args cmd) st <> Err (ErrUnknownCommand c)).
  { intros c. unfold Server.handleGetNode, Server.parseNodeID, Number_Int64.
    destruct (Args cmd !! "node_id"%string) as [[f|i|i|n|s|b| |]|];
      try destruct (ParseInt _); try discriminate;
      match goal with
      | |- context [nodes st !! ?i] =>
          destruct (nodes st !! i) as [p|]; [|discriminate];
          destruct (nodeObjs st !! p); discriminate
      end. }
  assert (Hping : forall c, handlePingNode' (Args cmd) st <> Err (ErrUnknownCommand c)).
  { intros c. unfold Server.handlePingNode, Server.parseNodeID, Number_Int64.
    destruct (Args cmd !! "node_id"%string) as [[f|i|i|n|s|b| |]|];
      try destruct (ParseInt _); try discriminate;
      match goal with
      | |- context [nodes st !! ?i] =>
          destruct (nodes st !! i) as [p|]; discriminate
      end. }
  assert (Hnodes : forall c, handleGetNodes st <> Err (ErrUnknownCommand c)).
  { intros c. unfold handleGetNodes, getNodes.
    generalize (@nil nat). generalize (map snd (map_to_list (nodes st))).
    intros ps. generalize st. induction ps as [|p ps IH]; intros st0 acc.
    - discriminate.
    - cbn [copy_nodes]. destruct (nodeObjs st0 !! p); [|discriminate].
      destruct (copy_node m st0) as [q st1]. apply IH. }
  assert (Hdiag : forall c, handleServerDiagnostics st <> Err (ErrUnknownCommand c)).
  { intros c. unfold handleServerDiagnostics.
    pose proof (Hnodes c) as Hn. unfold handleGetNodes in Hn.
    destruct (getNodes st) as [[ps st']|e| |]; try discriminate.
    - assert (Hder : forall qs, deref_nodes qs st' <> Err (ErrUnknownCommand c)).
      { induction qs as [|q qs IH]; [discriminate|]. cbn [deref_nodes].
        destruct (nodeObjs st' !! q); [|discriminate].
        destruct (deref_nodes qs st'); try discriminate. exact IH. }
      specialize (Hder ps). destruct (deref_nodes ps st'); try discriminate.
      intros H. injection H as ->. apply Hder. reflexivity.
    - exact Hn. }
  unfold Server.HandleCommand, handleStartListening, handleServerInfo, known_commands.
  destruct (String.eqb_spec (Command cmd) "server_info") as [E1|N1].
  { split; [split; [discriminate|intros H; exfalso; apply H; rewrite E1; cbn; tauto]|discriminate]. }
  destruct (String.eqb_spec (Command cmd) "get_nodes") as [E2|N2].
  { split; [split; [intros H; exfalso; exact (Hnodes _ H)
                   |intros H; exfalso; apply H; rewrite E2; cbn; tauto]
           |intros c H; exfalso; exact (Hnodes _ H)]. }
  destruct (String.eqb_spec (Command cmd) "get_node") as [E3|N3].
  { split; [split; [intros H; exfalso; exact (Hget _ H)
                   |intros H; exfalso; apply H; rewrite E3; cbn; tauto]
           |intros c H; exfalso; exact (Hget _ H)]. }
  destruct (String.eqb_spec (Command cmd) "diagnostics") as [E4|N4].
  { split; [split; [intros H; exfalso; exact (Hdiag _ H)
                   |intros H; exfalso; apply H; rewrite E4; cbn; tauto]
           |intros c H; exfalso; exact (Hdiag _ H)]. }
  destruct (String.eqb_spec (Command cmd) "start_listening") as [E5|N5].
  { split; [split; [intros H; exfalso; exact (Hnodes _ H)
                   |intros H; exfalso; apply H; rewrite E5; cbn; tauto]
           |intros c H; exfalso; exact (Hnodes _ H)]. }
  destruct (String.eqb_spec (Command cmd) "ping_node") as [E6|N6].
  { split; [split; [intros H; exfalso; exact (Hping _ H)
                   |intros H; exfalso; apply H; rewrite E6; cbn; tauto]
           |intros c H; exfalso; exact (Hping _ H)]. }
  assert (Hno : ~ In (Command cmd)
                  ["server_info"; "get_nodes"; "get_node"; "diagnostics";
                   "start_listening"; "ping_node"]%string).
  { cbn. intros H. decompose [or] H; congruence. }
  split; [split; [intros _; exact Hno|reflexivity]|].
  intros c H. injection H as <-. split; [reflexivity|exact Hno].
Qed.

End WithFloatConversion.

Lemma handleGetNodes_fresh_copies_witness :
  exists (qs : list nat) (st' : State),
    handleGetNodes one_node = Ok (RNodes qs, st')
    /\ length qs = size (nodes one_node)
    /\ List.NoDup qs
    /\ (forall q, q ∈ qs -> nodeObjs one_node !! q = None)
    /\ Forall2 (fun q p => exists node, nodeObjs st' !! q = Some node
                                        /\ nodeObjs one_node !! p = Some node)
               qs (node_ptrs one_node)
    /\ allocates_only one_node st'
    /\ registry_view st' = registry_view one_node.
Proof.
  apply (handleGetNodes_fresh_copies one_node).
  intros i p H. unfold one_node in H. cbn [nodes] in H.
  apply lookup_singleton_Some in H as [<- <-].
  vm_compute. eauto.
Defined.

Lemma handleServerDiagnostics_spec_witness :
  exists (l : list MatterNodeData) (st' : State),
    handleServerDiagnostics one_node
    = Ok (RDiagnostics (serverInfo one_node) l [], st')
    /\ Forall2 (fun node p => nodeObjs one_node !! p = Some node) l
               (node_ptrs one_node)
    /\ length l = size (nodes one_node)
    /\ (forall node, node ∈ l <->
          exists i p, nodes one_node !! i = Some p
                      /\ nodeObjs one_node !! p = Some node)
    /\ allocates_only one_node st'
    /\ registry_view st' = registry_view one_node.
Proof.
  apply (handleServerDiagnostics_spec one_node).
  intros i p H. unfold one_node in H. cbn [nodes] in H.
  apply lookup_singleton_Some in H as [<- <-].
  vm_compute. eauto.
Defined.

Lemma loadNodes_spec_witness :
  exists st' : State,
    loadNodes (Some stored_ptrs) (fresh_server sample_info stored_objs ∅) = Ok st'
    /\ nodeObjs st' = stored_objs /\ mapObjs st' = ∅ /\ serverInfo st' = sample_info
    /\ keyed st'
    /\ wf_state st'
    /\ (forall i, is_Some (nodes st' !! i) <-> i ∈ stored_ids stored_objs stored_ptrs)
    /\ (forall i p, nodes st' !! i = Some p -> Some p ∈ stored_ptrs)
    /\ (forall l1 p l2 node,
          stored_ptrs = l1 ++ Some p :: l2 ->
          stored_objs !! p = Some node ->
          NodeID node ∉ stored_ids stored_objs l2 ->
          nodes st' !! NodeID node = Some p).
Proof.
  apply (loadNodes_spec sample_info stored_objs ∅ stored_ptrs).
  repeat constructor; eexists; (split; [reflexivity|vm_compute; eauto]).
Defined.

Lemma get_node_returns_requested_witness :
  let args : gmap string value := {[ "node_id"%string := VInt 1 ]} in
  (nodes one_node !! 1 = None
   /\ handleGetNode int_of_unrepresentable_amd64 args one_node
      = Err (ErrNodeNotFound 1))
  \/ (exists (p q : nat) (node : MatterNodeData) (st' : State),
        nodes one_node !! 1 = Some p
        /\ nodeObjs one_node !! p = Some node
        /\ handleGetNode int_of_unrepresentable_amd64 args one_node
           = Ok (RNode q, st')
        /\ nodeObjs one_node !! q = None
        /\ nodeObjs st' !! q = Some node
        /\ NodeID node = 1
        /\ registry_view st' = registry_view one_node
        /\ keyed st').
Proof.
  intros args.
  apply (get_node_returns_requested int_of_unrepresentable_amd64 args one_node 1).
  - intros i p H. unfold one_node in H. cbn [nodes] in H.
  apply lookup_singleton_Some in H as [<- <-].
    eexists. split; [vm_compute; reflexivity|reflexivity].
  - vm_compute. reflexivity.
Defined.

Lemma HandleCommand_read_only_witness :
  ((exists r st',
       HandleCommand int_of_unrepresentable_amd64 get_nodes_cmd one_node = Ok (r, st'))
   \/ (exists e,
         HandleCommand int_of_unrepresentable_amd64 get_nodes_cmd one_node = Err e))
  /\ (forall r st',
        HandleCommand int_of_unrepresentable_amd64 get_nodes_cmd one_node = Ok (r, st') ->
        allocates_only one_node st'
        /\ registry_view st' = registry_view one_node
        /\ wf_state st'
        /\ (keyed one_node -> keyed st')).
Proof.
  apply (HandleCommand_read_only int_of_unrepresentable_amd64 get_nodes_cmd one_node).
  intros i p H. unfold one_node in H. cbn [nodes] in H.
  apply lookup_singleton_Some in H as [<- <-].
  vm_compute. eauto.
Defined.

End ServerMore.
